(** * Sleep.me thermostat integration: API client and polling coordinator

    A shallow embedding of [custom_components/sleepme_thermostat/api.py]
    and [custom_components/sleepme_thermostat/coordinator.py], and of the
    entities of [climate.py] and [binary_sensor.py] that read the
    coordinator's cache and send commands through it.

    Conventions of the embedding.
    - A coroutine that may raise returns a [result]; the state it reads
      and writes (rate limiter, remote service, coordinator attributes) is
      passed explicitly.
    - A Python [dict] keyed by strings that is updated by key is a
      [gmap string _]; the dictionary a pydantic model dumps to is the
      ordered list of its fields, wrapped in [VDict] when nested.
    - What a client hands to the coordinator for a device or a state is
      a pydantic model, as the client of [api.py] returns, or a mapping,
      as the annotation [list[dict]] of the device list has it;
      subscripting a model ([device["id"]]) or unpacking one
      ([{**device, **data}]) raises [TypeError].
    - Of the [LOGGER] calls of the coordinator, what their arguments can
      raise is kept (the subscripts and the [json.dumps] of the debug
      messages are evaluated before the call); those of the client are
      events of the call.
    - The deadline of [async_timeout.timeout(10)] is a predicate on the
      state of the world, consulted where the block awaits.
    - Pieces that live outside the two modules (the JSON reader, pydantic's
      scalar coercions, the rate limiter's policy) are operations of the
      class [Externals]. *)

From stdpp Require Import gmap strings list fin_maps.
From Stdlib Require Import ZArith.

Local Open Scope string_scope.
Local Open Scope list_scope.
Set Warnings "-register-all,-clear-no-such-hyp".

(* ===================================================================== *)
(** ** Python values and exceptions *)
(* ===================================================================== *)

Module Py.

(** [decimal.Decimal]: sign, coefficient and exponent, compared exactly. *)
Record Decimal := mkDecimal { dec_neg : bool; dec_coeff : N; dec_exp : Z }.

(** Values that travel through JSON bodies and [model_dump()]. *)
Inductive value :=
| VNone
| VBool (b : bool)
| VInt (z : Z)
| VDec (d : Decimal)
| VStr (s : string)
| VList (l : list value)
| VDict (kv : list (string * value)).

(** [d.get(k)] on the field list of a dictionary. *)
Fixpoint dict_get (k : string) (kv : list (string * value)) : option value :=
  match kv with
  | [] => None
  | (k', v) :: kv' => if String.eqb k k' then Some v else dict_get k kv'
  end.

(** The exception classes that can reach the code, with their bases. *)
Inductive exn_class :=
| Exception
| OSError
| TimeoutError
| ValueError
| LookupError
| KeyError
| TypeError
| gaierror
| ClientError
| ClientResponseError
| ClientConnectionError
| ServerTimeoutError
| ValidationError
| SleepmeApiClientError
| SleepmeApiClientCommunicationError
| SleepmeApiClientAuthenticationError
| SleepmeApiClientRateLimitError
| HomeAssistantError
| ConfigEntryAuthFailed.

#[global] Instance exn_class_eq_dec : EqDecision exn_class.
Proof. solve_decision. Defined.

Definition bases (c : exn_class) : list exn_class :=
  match c with
  | Exception => []
  | OSError => [Exception]
  | TimeoutError => [OSError]
  | ValueError => [Exception]
  | LookupError => [Exception]
  | KeyError => [LookupError]
  | TypeError => [Exception]
  | gaierror => [OSError]
  | ClientError => [Exception]
  | ClientResponseError => [ClientError]
  | ClientConnectionError => [ClientError]
  | ServerTimeoutError => [ClientConnectionError; TimeoutError]
  | ValidationError => [ValueError]
  | SleepmeApiClientError => [Exception]
  | SleepmeApiClientCommunicationError => [SleepmeApiClientError]
  | SleepmeApiClientAuthenticationError => [SleepmeApiClientError]
  | SleepmeApiClientRateLimitError => [SleepmeApiClientError]
  | HomeAssistantError => [Exception]
  | ConfigEntryAuthFailed => [HomeAssistantError]
  end.

Fixpoint issubclass_upto (depth : nat) (c d : exn_class) : bool :=
  bool_decide (c = d) ||
  match depth with
  | O => false
  | S depth' => existsb (fun b => issubclass_upto depth' b d) (bases c)
  end.

(** The hierarchy above is at most four classes deep. *)
Definition issubclass (c d : exn_class) : bool := issubclass_upto 4 c d.

(** A raised exception: its class, [str(exception)], and [__cause__]. *)
Inductive exn :=
| Exn (cls : exn_class) (msg : string) (cause : option exn).

Definition exn_cls (e : exn) : exn_class := let 'Exn c _ _ := e in c.
Definition str (e : exn) : string := let 'Exn _ m _ := e in m.
Definition exn_cause (e : exn) : option exn := let 'Exn _ _ c := e in c.

Definition isinstance (e : exn) (c : exn_class) : bool :=
  issubclass (exn_cls e) c.

(** [raise cls(msg)] and [raise cls(msg) from e]. *)
Definition raise_ (c : exn_class) (m : string) : exn := Exn c m None.
Definition raise_from (c : exn_class) (m : string) (e : exn) : exn :=
  Exn c m (Some e).

(** What a call yields: a value, or a raised exception. *)
Inductive result (A : Type) :=
| Ok (a : A)
| Err (e : exn).
Arguments Ok {A} a.
Arguments Err {A} e.

End Py.

Import Py.

(* ===================================================================== *)
(** ** What the two modules take from outside *)
(* ===================================================================== *)

(** The rate limiter ([rate_limiter.py]), the JSON reader and pydantic's
    coercion of a JSON scalar to [int], [bool] and [Decimal] are used by
    [api.py] and defined elsewhere; the client is stated over any of them. *)
Class Externals := {
  RateLimiter : Type;
  can_send_request : RateLimiter -> bool * RateLimiter;
  json_loads : string -> option value;
  validate_int : value -> option Z;
  validate_bool : value -> option bool;
  validate_decimal : value -> option Decimal
}.

(** The part of [aiohttp] the client touches. *)
Module aiohttp.

Inductive HTTPMethod := GET | POST | PUT | PATCH | DELETE.

(** The keyword arguments of [session.request]. *)
Record request := mkRequest {
  method : HTTPMethod;
  url : string;
  headers : list (string * string);
  json : list (string * value)
}.

(** A response: its status, the text [ClientResponseError] prints for it,
    and what [await response.read()] yields. *)
Record ClientResponse := mkResponse {
  status : Z;
  reason : string;
  read : result string
}.

(** [ClientResponse.ok] is [400 > self.status]. *)
Definition ok (response : ClientResponse) : bool := (status response <? 400)%Z.

Definition raise_for_status (response : ClientResponse) : result unit :=
  if ok response then Ok tt
  else Err (raise_ ClientResponseError (reason response)).

End aiohttp.

(* ===================================================================== *)
(** ** api.py *)
(* ===================================================================== *)

Module Api.
Import aiohttp.

Definition HEADERS : list (string * string) :=
  [("Content-type", "application/json; charset=UTF-8")].

Definition UNAUTHORIZED : Z := 401.
Definition FORBIDDEN : Z := 403.
Definition TOO_MANY_REQUESTS : Z := 429.

Definition _verify_response_or_raise (response : ClientResponse) : result unit :=
  if bool_decide (status response = UNAUTHORIZED)
     || bool_decide (status response = FORBIDDEN)
  then Err (raise_ SleepmeApiClientAuthenticationError "Invalid credentials")
  else if bool_decide (status response = TOO_MANY_REQUESTS)
  then Err (raise_ SleepmeApiClientRateLimitError "Rate limit exceeded")
  else raise_for_status response.

(** *** The pydantic models *)

Record SleepmeDevice := mkDevice {
  id : string;
  name : string;
  attachments : list string
}.

Definition is_chilipad_pro (self : SleepmeDevice) : bool :=
  bool_decide ("CHILIPAD_PRO" ∈ attachments self).

Record SleepmeDevices := mkDevices { devices : list SleepmeDevice }.

Record SleepmeDeviceAbout := mkAbout {
  firmware_version : string;
  ip_address : string;
  lan_address : string;
  mac_address : string;
  model : string;
  serial_number : string
}.

(** [Literal["f", "c"]] and [Literal["active", "standby"]]. *)
Inductive temperature_unit := unit_f | unit_c.
Inductive thermal_status := active | standby.

Record SleepmeDeviceControl := mkControl {
  brightness_level : Z;
  display_temperature_unit : temperature_unit;
  set_temperature_c : Decimal;
  set_temperature_f : Decimal;
  thermal_control_status : thermal_status;
  time_zone : string
}.

Record SleepmeDeviceStatus := mkStatus {
  is_connected : bool;
  is_water_low : bool;
  water_level : Z;
  water_temperature_c : Decimal;
  water_temperature_f : Decimal
}.

Record SleepmeDeviceState := mkState {
  about : SleepmeDeviceAbout;
  control : SleepmeDeviceControl;
  status : SleepmeDeviceStatus
}.

(** A model class: how a decoded JSON value is validated into the record
    and what [model_dump()] returns for it. *)
Class BaseModel (T : Type) := {
  model_validate : value -> option T;
  model_dump : T -> value
}.

(** The field list of a model that dumps to a dictionary. *)
Definition items (v : value) : list (string * value) :=
  match v with
  | VDict kv => kv
  | _ => []
  end.

Definition validate_str (v : value) : option string :=
  match v with
  | VStr s => Some s
  | _ => None
  end.

Definition validate_list {A} (item : value -> option A) (v : value)
  : option (list A) :=
  match v with
  | VList l => mapM item l
  | _ => None
  end.

Definition validate_unit (v : value) : option temperature_unit :=
  match v with
  | VStr s => if String.eqb s "f" then Some unit_f
              else if String.eqb s "c" then Some unit_c else None
  | _ => None
  end.

Definition validate_thermal (v : value) : option thermal_status :=
  match v with
  | VStr s => if String.eqb s "active" then Some active
              else if String.eqb s "standby" then Some standby else None
  | _ => None
  end.

(** A required field, and a field with a default. *)
Definition required {A} (k : string) (item : value -> option A)
  (kv : list (string * value)) : option A :=
  dict_get k kv ≫= item.

Definition with_default {A} (k : string) (item : value -> option A) (dflt : A)
  (kv : list (string * value)) : option A :=
  match dict_get k kv with
  | None => Some dflt
  | Some v => item v
  end.

Definition dump_unit (u : temperature_unit) : value :=
  VStr (match u with unit_f => "f" | unit_c => "c" end).

Definition dump_thermal (t : thermal_status) : value :=
  VStr (match t with active => "active" | standby => "standby" end).

#[global] Instance SleepmeDevice_model : BaseModel SleepmeDevice := {
  model_validate v :=
    match v with
    | VDict kv =>
        i ← required "id" validate_str kv;
        n ← required "name" validate_str kv;
        a ← with_default "attachments" (validate_list validate_str) [] kv;
        Some (mkDevice i n a)
    | _ => None
    end;
  model_dump d :=
    VDict [("id", VStr (id d)); ("name", VStr (name d));
           ("attachments", VList (VStr <$> attachments d))]
}.

(** [SleepmeDevices.validate_devices], run before field validation. *)
Definition validate_devices (data : value) : value :=
  match data with
  | VList _ => VDict [("devices", data)]
  | _ => data
  end.

(** [SleepmeDevices.serialize_devices] returns [self.devices]; pydantic
    then dumps each device of the returned list. *)
Definition serialize_devices (self : SleepmeDevices) : value :=
  VList (model_dump <$> devices self).

#[global] Instance SleepmeDevices_model : BaseModel SleepmeDevices := {
  model_validate data :=
    match validate_devices data with
    | VDict kv =>
        ds ← required "devices" (validate_list model_validate) kv;
        Some (mkDevices ds)
    | _ => None
    end;
  model_dump := serialize_devices
}.

#[global] Instance SleepmeDeviceAbout_model : BaseModel SleepmeDeviceAbout := {
  model_validate v :=
    match v with
    | VDict kv =>
        fw ← required "firmware_version" validate_str kv;
        ip ← required "ip_address" validate_str kv;
        lan ← required "lan_address" validate_str kv;
        mac ← required "mac_address" validate_str kv;
        mo ← required "model" validate_str kv;
        sn ← required "serial_number" validate_str kv;
        Some (mkAbout fw ip lan mac mo sn)
    | _ => None
    end;
  model_dump a :=
    VDict [("firmware_version", VStr (firmware_version a));
           ("ip_address", VStr (ip_address a));
           ("lan_address", VStr (lan_address a));
           ("mac_address", VStr (mac_address a));
           ("model", VStr (model a));
           ("serial_number", VStr (serial_number a))]
}.

Section Models.
Context `{Externals}.

#[global] Instance SleepmeDeviceControl_model : BaseModel SleepmeDeviceControl := {
  model_validate v :=
    match v with
    | VDict kv =>
        b ← required "brightness_level" validate_int kv;
        u ← required "display_temperature_unit" validate_unit kv;
        c ← required "set_temperature_c" validate_decimal kv;
        f ← required "set_temperature_f" validate_decimal kv;
        t ← required "thermal_control_status" validate_thermal kv;
        z ← required "time_zone" validate_str kv;
        Some (mkControl b u c f t z)
    | _ => None
    end;
  model_dump c :=
    VDict [("brightness_level", VInt (brightness_level c));
           ("display_temperature_unit", dump_unit (display_temperature_unit c));
           ("set_temperature_c", VDec (set_temperature_c c));
           ("set_temperature_f", VDec (set_temperature_f c));
           ("thermal_control_status", dump_thermal (thermal_control_status c));
           ("time_zone", VStr (time_zone c))]
}.

#[global] Instance SleepmeDeviceStatus_model : BaseModel SleepmeDeviceStatus := {
  model_validate v :=
    match v with
    | VDict kv =>
        c ← required "is_connected" validate_bool kv;
        l ← required "is_water_low" validate_bool kv;
        w ← required "water_level" validate_int kv;
        tc ← required "water_temperature_c" validate_decimal kv;
        tf ← required "water_temperature_f" validate_decimal kv;
        Some (mkStatus c l w tc tf)
    | _ => None
    end;
  model_dump s :=
    VDict [("is_connected", VBool (is_connected s));
           ("is_water_low", VBool (is_water_low s));
           ("water_level", VInt (water_level s));
           ("water_temperature_c", VDec (water_temperature_c s));
           ("water_temperature_f", VDec (water_temperature_f s))]
}.

#[global] Instance SleepmeDeviceState_model : BaseModel SleepmeDeviceState := {
  model_validate v :=
    match v with
    | VDict kv =>
        a ← required "about" model_validate kv;
        c ← required "control" model_validate kv;
        s ← required "status" model_validate kv;
        Some (mkState a c s)
    | _ => None
    end;
  model_dump s :=
    VDict [("about", model_dump (about s));
           ("control", model_dump (control s));
           ("status", model_dump (status s))]
}.

(** [response_model.model_validate_json(content)]: a body that is not JSON
    and a JSON value that does not fit the model both raise pydantic's
    [ValidationError]. *)
Definition model_validate_json {T} `{BaseModel T} (content : string) : result T :=
  match json_loads content with
  | None => Err (raise_ ValidationError "Invalid JSON")
  | Some v =>
      match model_validate v with
      | None => Err (raise_ ValidationError "validation error")
      | Some t => Ok t
      end
  end.

End Models.

(** *** The client *)

Section Client.
Context `{Externals}.

Record SleepmeApiClient := mkClient {
  _api_key : string;
  _session : request -> result ClientResponse;
  _rate_limiter : RateLimiter
}.

(** What a call leaves behind, in order: log records and the request
    handed to the session. *)
Inductive event :=
| LogInfo (msg : string)
| LogDebugResponse (m : HTTPMethod) (u : string) (content : string)
| Sent (r : request).

(** The outcome of one call of the client: its events, what it returned
    or raised, and the rate limiter afterwards. *)
Record call (T : Type) := mkCall {
  events : list event;
  returned : result T;
  limiter : RateLimiter
}.
Arguments mkCall {T} _ _ _.
Arguments events {T} _.
Arguments returned {T} _.
Arguments limiter {T} _.

(** The three [except] clauses of [api_wrapper], tried in order. *)
Definition api_wrapper_except (exception : exn) : exn :=
  if isinstance exception TimeoutError then
    raise_from SleepmeApiClientCommunicationError
      ("Timeout error fetching information - " +:+ str exception) exception
  else if isinstance exception ClientError || isinstance exception gaierror then
    raise_from SleepmeApiClientCommunicationError
      ("Error fetching information - " +:+ str exception) exception
  else
    raise_from SleepmeApiClientError
      ("Something really wrong happened! - " +:+ str exception) exception.

(** The body of the [try]: send, verify, read, log, validate. *)
Definition api_wrapper_try {T} `{BaseModel T} (self : SleepmeApiClient)
  (req : request) : list event * result T :=
  match _session self req with
  | Err e => ([Sent req], Err e)
  | Ok response =>
      match _verify_response_or_raise response with
      | Err e => ([Sent req], Err e)
      | Ok _ =>
          match read response with
          | Err e => ([Sent req], Err e)
          | Ok content =>
              ([Sent req; LogDebugResponse (method req) (url req) content],
               model_validate_json content)
          end
      end
  end.

Definition api_wrapper {T} `{BaseModel T} (self : SleepmeApiClient)
  (method : HTTPMethod) (url : string)
  (data : option (list (string * value))) : call T :=
  let data := default [] data in
  let headers :=
    (HEADERS ++ [("Authorization", "Bearer " +:+ _api_key self)])%list in
  let '(allowed, rate_limiter) := can_send_request (_rate_limiter self) in
  let warned := if allowed then [] else [LogInfo "Rate limit exceeded"] in
  let '(evs, r) := api_wrapper_try self (mkRequest method url headers data) in
  mkCall (warned ++ evs)
         (match r with
          | Ok t => Ok t
          | Err exception => Err (api_wrapper_except exception)
          end)
         rate_limiter.

(** The request [api_wrapper] hands to the session. *)
Definition built_request (self : SleepmeApiClient) (method : HTTPMethod)
  (url : string) (data : option (list (string * value))) : request :=
  mkRequest method url
    (HEADERS ++ [("Authorization", "Bearer " +:+ _api_key self)])%list
    (default [] data).

(** The requests among the events of a call. *)
Definition sent (evs : list event) : list request :=
  omap (fun ev => match ev with Sent r => Some r | _ => None end) evs.

Definition devices_url : string := "https://api.developer.sleep.me/v1/devices".
Definition device_url (device_id : string) : string :=
  "https://api.developer.sleep.me/v1/devices/" +:+ device_id.

Definition async_get_devices (self : SleepmeApiClient)
  : call (list SleepmeDevice) :=
  let c := api_wrapper (T := SleepmeDevices) self GET devices_url None in
  mkCall (events c)
         (match returned c with
          | Ok ds => Ok (filter (fun device => is_chilipad_pro device = true)
                                (devices ds))
          | Err e => Err e
          end)
         (limiter c).

Definition async_get_data (self : SleepmeApiClient) : call (list value) :=
  let c := async_get_devices self in
  mkCall (events c)
         (match returned c with
          | Ok ds => Ok ((fun device : SleepmeDevice => model_dump device) <$> ds)
          | Err e => Err e
          end)
         (limiter c).

Definition async_get_device_state (self : SleepmeApiClient) (device_id : string)
  : call SleepmeDeviceState :=
  api_wrapper self GET (device_url device_id) None.

Definition async_set_device_temperature (self : SleepmeApiClient)
  (device_id : string) (temperature : Z) : call SleepmeDeviceControl :=
  api_wrapper self PATCH (device_url device_id)
    (Some [("set_temperature_f", VInt temperature)]).

Definition async_set_device_mode (self : SleepmeApiClient)
  (device_id : string) (mode : string) : call SleepmeDeviceControl :=
  api_wrapper self PATCH (device_url device_id)
    (Some [("thermal_control_status", VStr mode)]).

End Client.

Arguments mkCall {_ T} _ _ _.
Arguments events {_ T} _.
Arguments returned {_ T} _.
Arguments limiter {_ T} _.

End Api.

(* ===================================================================== *)
(** ** coordinator.py *)
(* ===================================================================== *)

Module Coordinator.
Import Api.

(** What a client hands over for a device: the pydantic model the client
    of [api.py] returns, which can be neither subscripted nor unpacked
    with [**], or a mapping, as the annotation [list[dict]] of [_devices]
    has it. Device ids are strings (the fetch of the client is declared
    over [str]): a mapping holds its id, when it has one, beside its other
    items. *)
Inductive device_obj :=
| DeviceModel (d : SleepmeDevice)
| DeviceDict (device_id : option string) (others : gmap string value).

(** What a client hands over for the state of a device, likewise. *)
Inductive state_obj :=
| StateModel (st : SleepmeDeviceState)
| StateDict (d : gmap string value).

(** [self.config_entry.runtime_data.client]: the four coroutines the
    coordinator awaits, over the state [W] of whatever stands behind them
    (the remote service and the rate limiter, or a mock). *)
Class Client (W : Type) := {
  client_async_get_devices : W -> result (list device_obj) * W;
  client_async_get_device_state : string -> W -> result state_obj * W;
  client_async_set_device_temperature :
    string -> Z -> W -> result SleepmeDeviceControl * W;
  client_async_set_device_mode :
    string -> string -> W -> result SleepmeDeviceControl * W
}.

(** The deadline of [async_timeout.timeout(10)]: whether it has passed
    in a state of the world. *)
Class Clock (W : Type) := {
  expired : W -> bool
}.

(** Whether the inherited scheduler still polls. *)
Inductive phase := Idle | Halted.

(** The attributes of the coordinator: [_devices] and [data] are the ones
    [coordinator.py] reads and writes; [notified] counts the calls of the
    inherited [async_update_listeners], [state] is the scheduler's. *)
Record SleepmeDataUpdateCoordinator := mkCoordinator {
  _devices : list device_obj;
  data : option (gmap string (gmap string value));
  notified : nat;
  state : phase
}.

(** A dumped model read as a mapping, and [{**device, **data}]: the keys
    of the right operand win. *)
Definition mapping (v : value) : gmap string value := list_to_map (items v).

Definition unpack (device data : value) : gmap string value :=
  mapping data ∪ mapping device.

(** What a reader of the cache finds: [self.data[device_id]] and
    [self.data[device_id][key]]. *)
Definition cache_entry (self : SleepmeDataUpdateCoordinator)
  (device_id : string) : option (gmap string value) :=
  cache ← data self; cache !! device_id.

Definition sub_record (self : SleepmeDataUpdateCoordinator)
  (device_id key : string) : option value :=
  entry ← cache_entry self device_id; entry !! key.

(** The items of a mapping device. *)
Definition device_items (device_id : option string)
  (others : gmap string value) : gmap string value :=
  match device_id with
  | Some s => <["id" := VStr s]> others
  | None => delete "id" others
  end.

(** [device[key]]. *)
Definition device_getitem (device : device_obj) (key : string) : result value :=
  match device with
  | DeviceModel _ =>
      Err (raise_ TypeError "'SleepmeDevice' object is not subscriptable")
  | DeviceDict device_id others =>
      match device_items device_id others !! key with
      | Some v => Ok v
      | None => Err (raise_ KeyError key)
      end
  end.

(** [device["id"]], a string when there is one. *)
Definition device_id_of (device : device_obj) : result string :=
  match device with
  | DeviceModel _ =>
      Err (raise_ TypeError "'SleepmeDevice' object is not subscriptable")
  | DeviceDict (Some s) _ => Ok s
  | DeviceDict None _ => Err (raise_ KeyError "id")
  end.

(** What [**device] and [**data] unpack. *)
Definition device_mapping (device : device_obj) : result (gmap string value) :=
  match device with
  | DeviceModel _ =>
      Err (raise_ TypeError "'SleepmeDevice' object is not a mapping")
  | DeviceDict device_id others => Ok (device_items device_id others)
  end.

Definition state_mapping (data : state_obj) : result (gmap string value) :=
  match data with
  | StateModel _ =>
      Err (raise_ TypeError "'SleepmeDeviceState' object is not a mapping")
  | StateDict d => Ok d
  end.

(** [{**device, **data}]: the device is unpacked first, the keys of the
    state win. *)
Definition unpack_objects (device : device_obj) (data : state_obj)
  : result (gmap string value) :=
  match device_mapping device with
  | Err e => Err e
  | Ok a =>
      match state_mapping data with
      | Err e => Err e
      | Ok b => Ok (b ∪ a)
      end
  end.

(** Whether [json.dumps] takes a value: it raises [TypeError] on a
    [Decimal], wherever it sits. *)
Fixpoint json_serializable (v : value) : bool :=
  match v with
  | VDec _ => false
  | VList l => forallb json_serializable l
  | VDict kv => forallb (fun item => json_serializable item.2) kv
  | _ => true
  end.

Definition json_dumps (entry : gmap string value) : result unit :=
  if forallb (fun item => json_serializable item.2) (map_to_list entry)
  then Ok tt
  else Err (raise_ TypeError "Object of type Decimal is not JSON serializable").

(** [[device['name'] for device in devices]]. *)
Fixpoint device_names (devices : list device_obj) : result (list value) :=
  match devices with
  | [] => Ok []
  | device :: rest =>
      match device_getitem device "name" with
      | Err e => Err e
      | Ok n =>
          match device_names rest with
          | Err e => Err e
          | Ok ns => Ok (n :: ns)
          end
      end
  end.

Section Coordinator.
Context `{Externals} {W : Type} `{Client W} `{Clock W}.

(** [self.data[device_id]["status"] = v]. *)
Definition set_status (self : SleepmeDataUpdateCoordinator)
  (device_id : string) (v : value)
  : result unit * SleepmeDataUpdateCoordinator :=
  match data self with
  | None =>
      (Err (raise_ TypeError "'NoneType' object is not subscriptable"), self)
  | Some cache =>
      match cache !! device_id with
      | None => (Err (raise_ KeyError device_id), self)
      | Some entry =>
          (Ok tt,
           mkCoordinator (_devices self)
             (Some (<[device_id := <["status" := v]> entry]> cache))
             (notified self) (state self))
      end
  end.

Definition async_set_device_mode (self : SleepmeDataUpdateCoordinator)
  (device_id mode : string) (w : W)
  : result unit * SleepmeDataUpdateCoordinator * W :=
  match client_async_set_device_mode device_id mode w with
  | (Err e, w') => (Err e, self, w')
  | (Ok status, w') => (set_status self device_id (model_dump status), w')
  end.

Definition async_set_device_temperature (self : SleepmeDataUpdateCoordinator)
  (device_id : string) (temperature : Z) (w : W)
  : result unit * SleepmeDataUpdateCoordinator * W :=
  match client_async_set_device_temperature device_id temperature w with
  | (Err e, w') => (Err e, self, w')
  | (Ok status, w') => (set_status self device_id (model_dump status), w')
  end.

(** The two mutation calls, and the client call behind each. *)
Inductive mutation :=
| SetTemperature (temperature : Z)
| SetMode (mode : string).

Definition client_mutate (op : mutation) (device_id : string) (w : W)
  : result SleepmeDeviceControl * W :=
  match op with
  | SetTemperature temperature =>
      client_async_set_device_temperature device_id temperature w
  | SetMode mode => client_async_set_device_mode device_id mode w
  end.

Definition mutate (op : mutation) (self : SleepmeDataUpdateCoordinator)
  (device_id : string) (w : W)
  : result unit * SleepmeDataUpdateCoordinator * W :=
  match op with
  | SetTemperature temperature =>
      async_set_device_temperature self device_id temperature w
  | SetMode mode => async_set_device_mode self device_id mode w
  end.

(** The device list is stored first; the debug message that follows
    subscripts every stored device. *)
Definition _async_setup (self : SleepmeDataUpdateCoordinator) (w : W)
  : result unit * SleepmeDataUpdateCoordinator * W :=
  match client_async_get_devices w with
  | (Err e, w') => (Err e, self, w')
  | (Ok ds, w') =>
      let stored := mkCoordinator ds (data self) (notified self) (state self) in
      match device_names ds with
      | Err e => (Err e, stored, w')
      | Ok _ => (Ok tt, stored, w')
      end
  end.

(** [await api.async_get_device_state(device_id)] inside the timeout
    block: when the deadline passes while the fetch is awaited, the block
    raises [TimeoutError] in place of whatever the fetch was doing. *)
Definition await_device_state (device_id : string) (w : W)
  : result state_obj * W :=
  match client_async_get_device_state device_id w with
  | (r, w') =>
      if expired w' then (Err (raise_ TimeoutError ""), w') else (r, w')
  end.

(** One turn of the [for] loop: the id is subscripted, the state is
    fetched, device and state are merged into the entry, and the debug
    message subscripts the name and dumps the entry as JSON. The turn
    yields the id and the entry stored under it. *)
Definition fetch_one (device : device_obj) (w : W)
  : result (string * gmap string value) * W :=
  match device_id_of device with
  | Err e => (Err e, w)
  | Ok device_id =>
      match await_device_state device_id w with
      | (Err e, w') => (Err e, w')
      | (Ok data, w') =>
          match unpack_objects device data with
          | Err e => (Err e, w')
          | Ok entry =>
              match device_getitem device "name" with
              | Err e => (Err e, w')
              | Ok _ =>
                  match json_dumps entry with
                  | Err e => (Err e, w')
                  | Ok _ => (Ok (device_id, entry), w')
                  end
              end
          end
      end
  end.

(** Why a turn of the loop raises: the id subscript raised, the deadline
    passed while the state was awaited, the fetch raised, the merge
    raised, the name subscript raised, or the dump of the entry for the
    debug message raised. *)
Definition turn_raises (d : device_obj) (w w' : W) (e : exn) : Prop :=
  (device_id_of d = Err e /\ w' = w) \/
  exists device_id r,
    device_id_of d = Ok device_id /\
    client_async_get_device_state device_id w = (r, w') /\
    if expired w' then e = raise_ TimeoutError ""
    else match r with
         | Err e' => e = e'
         | Ok data =>
             match unpack_objects d data with
             | Err e' => e = e'
             | Ok entry =>
                 match device_getitem d "name" with
                 | Err e' => e = e'
                 | Ok _ => json_dumps entry = Err e
                 end
             end
         end.

(** The [for] loop of [_async_update_data]: the first turn that raises
    ends it. *)
Fixpoint fetch_loop (devices : list device_obj)
  (results : gmap string (gmap string value)) (w : W)
  : result (gmap string (gmap string value)) * W :=
  match devices with
  | [] => (Ok results, w)
  | device :: rest =>
      match fetch_one device w with
      | (Err e, w') => (Err e, w')
      | (Ok (device_id, entry), w') =>
          fetch_loop rest (<[device_id := entry]> results) w'
      end
  end.

(** The two [except] clauses: an authentication error is replaced, any
    other client error is logged and raised again, anything else passes. *)
Definition _async_update_data_except (exception : exn) : exn :=
  if isinstance exception SleepmeApiClientAuthenticationError then
    raise_from ConfigEntryAuthFailed (str exception) exception
  else if isinstance exception SleepmeApiClientError then exception
  else exception.

Definition _async_update_data (self : SleepmeDataUpdateCoordinator) (w : W)
  : result (gmap string (gmap string value)) * W :=
  match fetch_loop (_devices self) ∅ w with
  | (Ok results, w') => (Ok results, w')
  | (Err exception, w') => (Err (_async_update_data_except exception), w')
  end.

(** Modelled from the spec: the refresh cycle that the base class
    [DataUpdateCoordinator] runs around [_async_update_data] is not in the
    repository. Per cycle, [Idle -> Fetching -> {Success -> Idle,
    failure -> Idle, AuthFailure -> Halted}]: a successful cycle stores
    the returned mapping in [data] and notifies the listeners once, a
    failed one leaves [data] as it was, and after [ConfigEntryAuthFailed]
    no further cycle runs. *)
Definition _async_refresh (self : SleepmeDataUpdateCoordinator) (w : W)
  : SleepmeDataUpdateCoordinator * W :=
  match state self with
  | Halted => (self, w)
  | Idle =>
      match _async_update_data self w with
      | (Ok results, w') =>
          (mkCoordinator (_devices self) (Some results) (S (notified self)) Idle,
           w')
      | (Err e, w') =>
          if isinstance e ConfigEntryAuthFailed
          then (mkCoordinator (_devices self) (data self) (notified self) Halted,
                w')
          else (self, w')
      end
  end.

(** The turns of a run of devices that all complete: the id and the
    entry of each, with the state of the world before and after. *)
Inductive fetched : W -> list device_obj ->
  list (string * gmap string value) -> W -> Prop :=
| fetched_nil w : fetched w [] [] w
| fetched_cons w w1 w2 device rest device_id entry entries :
    fetch_one device w = (Ok (device_id, entry), w1) ->
    fetched w1 rest entries w2 ->
    fetched w (device :: rest) ((device_id, entry) :: entries) w2.

End Coordinator.

(** The concrete client of [api.py] behind the coordinator: each call
    leaves the client with the rate limiter it ended with, and devices
    and states are the models [api.py] returns. *)
Section RealClient.
Context `{Externals}.

Definition after {T} (self : SleepmeApiClient) (c : call T)
  : result T * SleepmeApiClient :=
  (returned c, mkClient (_api_key self) (_session self) (limiter c)).

Definition handed_over {A B} (f : A -> B) (r : result A * SleepmeApiClient)
  : result B * SleepmeApiClient :=
  (match r.1 with
   | Ok a => Ok (f a)
   | Err e => Err e
   end, r.2).

#[global] Instance SleepmeApiClient_client : Client SleepmeApiClient := {
  client_async_get_devices self :=
    handed_over (fmap DeviceModel) (after self (Api.async_get_devices self));
  client_async_get_device_state device_id self :=
    handed_over StateModel
      (after self (Api.async_get_device_state self device_id));
  client_async_set_device_temperature device_id temperature self :=
    after self (Api.async_set_device_temperature self device_id temperature);
  client_async_set_device_mode device_id mode self :=
    after self (Api.async_set_device_mode self device_id mode)
}.

End RealClient.

End Coordinator.

(* ===================================================================== *)
(** ** Concrete clients, remotes and devices used in the examples *)
(* ===================================================================== *)

Module Fixtures.
Import aiohttp Api Coordinator.

(** A limiter with a budget of calls, a JSON reader that knows two bodies,
    and scalar coercions that accept the scalar of the same type. *)
Definition budget_can_send_request (left : nat) : bool * nat :=
  match left with
  | O => (false, O)
  | S left' => (true, left')
  end.

Definition dec_of_Z (z : Z) : Decimal := mkDecimal (z <? 0)%Z (Z.abs_N z) 0.

Definition two_devices_json : value :=
  VList [VDict [("id", VStr "dev-1"); ("name", VStr "Bedroom");
                ("attachments", VList [VStr "CHILIPAD_PRO"])];
         VDict [("id", VStr "dev-3"); ("name", VStr "Old pad")];
         VDict [("id", VStr "dev-2"); ("name", VStr "Guest");
                ("attachments", VList [VStr "WIFI"; VStr "CHILIPAD_PRO"]);
                ("firmware", VStr "1.2")]].

Definition example_json_loads (content : string) : option value :=
  if String.eqb content "<two devices>" then Some two_devices_json
  else if String.eqb content "<empty object>" then Some (VDict [])
  else None.

#[global] Instance example_externals : Externals := {
  RateLimiter := nat;
  can_send_request := budget_can_send_request;
  json_loads := example_json_loads;
  validate_int v := match v with VInt z => Some z | _ => None end;
  validate_bool v := match v with VBool b => Some b | _ => None end;
  validate_decimal v :=
    match v with
    | VDec d => Some d
    | VInt z => Some (dec_of_Z z)
    | _ => None
    end
}.

(** A remote that answers every request with one status and body. *)
Definition answers (st : Z) (body : string) : request -> result ClientResponse :=
  fun _ => Ok (mkResponse st "status error" (Ok body)).

(** A remote that cannot be reached. *)
Definition unreachable : request -> result ClientResponse :=
  fun _ => Err (raise_ ClientConnectionError "Cannot connect to host").

Definition example_client (session : request -> result ClientResponse)
  : SleepmeApiClient :=
  mkClient "secret" session 5%nat.

Definition dev1 : SleepmeDevice := mkDevice "dev-1" "Bedroom" ["CHILIPAD_PRO"].
Definition dev2 : SleepmeDevice := mkDevice "dev-2" "Guest" ["CHILIPAD_PRO"].

Definition an_about : SleepmeDeviceAbout :=
  mkAbout "5.39" "10.0.0.7" "10.0.0.7" "aa:bb:cc:dd:ee:ff" "DP999NA" "SN-1".

Definition a_control (fahrenheit : Z) : SleepmeDeviceControl :=
  mkControl 100 unit_f (mkDecimal false 215 (-1)) (dec_of_Z fahrenheit)
    active "America/Chicago".

Definition a_status : SleepmeDeviceStatus :=
  mkStatus true false 100 (mkDecimal false 230 (-1)) (mkDecimal false 734 (-1)).

Definition a_state (fahrenheit : Z) : SleepmeDeviceState :=
  mkState an_about (a_control fahrenheit) a_status.

(** A mock client: scripted answers, and a record of the calls made. *)
Inductive mock_call :=
| CallDevices
| CallState (device_id : string)
| CallSetTemperature (device_id : string) (temperature : Z)
| CallSetMode (device_id : string) (mode : string).

Record Mock := mkMock {
  mock_devices : result (list device_obj);
  mock_state : string -> result state_obj;
  mock_control : result SleepmeDeviceControl;
  mock_deadline : option nat;
  mock_calls : list mock_call
}.

Definition called (c : mock_call) (m : Mock) : Mock :=
  mkMock (mock_devices m) (mock_state m) (mock_control m) (mock_deadline m)
    (mock_calls m ++ [c]).

#[global] Instance Mock_client : Client Mock := {
  client_async_get_devices m := (mock_devices m, called CallDevices m);
  client_async_get_device_state device_id m :=
    (mock_state m device_id, called (CallState device_id) m);
  client_async_set_device_temperature device_id temperature m :=
    (mock_control m, called (CallSetTemperature device_id temperature) m);
  client_async_set_device_mode device_id mode m :=
    (mock_control m, called (CallSetMode device_id mode) m)
}.

(** The deadline of a mock passes with its [n]-th call, if it has one. *)
#[global] Instance Mock_clock : Clock Mock := {
  expired m :=
    match mock_deadline m with
    | Some n => bool_decide (n <= length (mock_calls m))%nat
    | None => false
    end
}.

(** The client of [api.py] in a world where the deadline never passes. *)
#[export] Instance no_deadline : Clock SleepmeApiClient := {
  expired _ := false
}.

Definition communication_error : exn :=
  raise_ SleepmeApiClientCommunicationError "Error fetching information - down".

Definition authentication_error : exn :=
  raise_ SleepmeApiClientAuthenticationError "Invalid credentials".

(** The two devices as mappings. *)
Definition dict1 : device_obj :=
  DeviceDict (Some "dev-1")
    (<["name" := VStr "Bedroom"]>
       (<["attachments" := VList [VStr "CHILIPAD_PRO"]]> ∅)).

Definition dict2 : device_obj :=
  DeviceDict (Some "dev-2")
    (<["name" := VStr "Guest"]>
       (<["attachments" := VList [VStr "CHILIPAD_PRO"]]> ∅)).

(** A state as a mapping that holds no [Decimal]: the temperatures are
    whole numbers. *)
Definition json_state (fahrenheit : Z) : gmap string value :=
  <["about" := model_dump an_about]>
    (<["control" :=
         VDict [("brightness_level", VInt 100);
                ("display_temperature_unit", VStr "f");
                ("set_temperature_c", VInt 21);
                ("set_temperature_f", VInt fahrenheit);
                ("thermal_control_status", VStr "active");
                ("time_zone", VStr "America/Chicago")]]>
       (<["status" :=
            VDict [("is_connected", VBool true);
                   ("is_water_low", VBool false);
                   ("water_level", VInt 100);
                   ("water_temperature_c", VInt 23);
                   ("water_temperature_f", VInt 73)]]> ∅)).

(** The entry a cycle stores for a mapping device and such a state. *)
Definition json_entry (device_id name : string) (fahrenheit : Z)
  : gmap string value :=
  json_state fahrenheit ∪
  (<["id" := VStr device_id]>
     (<["name" := VStr name]>
        (<["attachments" := VList [VStr "CHILIPAD_PRO"]]> ∅))).

Definition json_cache (fahrenheit : Z) : gmap string (gmap string value) :=
  <["dev-2" := json_entry "dev-2" "Guest" fahrenheit]>
    (<["dev-1" := json_entry "dev-1" "Bedroom" fahrenheit]> ∅).

(** [dev-1] cannot be reached, every other device reports 72 degrees. *)
Definition first_fails (device_id : string) : result state_obj :=
  if String.eqb device_id "dev-1" then Err communication_error
  else Ok (StateDict (json_state 72)).

(** [dev-2] rejects the credentials, every other device reports 72. *)
Definition second_unauthorized (device_id : string) : result state_obj :=
  if String.eqb device_id "dev-2" then Err authentication_error
  else Ok (StateDict (json_state 72)).

(** Every device reports the same temperature, as the model [api.py]
    returns, as a mapping without a [Decimal], or as a mapping that is
    the dump of the model. *)
Definition all_report (fahrenheit : Z) (device_id : string)
  : result state_obj :=
  Ok (StateModel (a_state fahrenheit)).

Definition all_report_json (fahrenheit : Z) (device_id : string)
  : result state_obj :=
  Ok (StateDict (json_state fahrenheit)).

Definition all_report_dump (fahrenheit : Z) (device_id : string)
  : result state_obj :=
  Ok (StateDict (mapping (model_dump (a_state fahrenheit)))).

(** A mock that lists the two devices as the models [api.py] returns,
    and one that lists them as mappings. *)
Definition a_mock (states : string -> result state_obj)
  (answer : result SleepmeDeviceControl) : Mock :=
  mkMock (Ok [DeviceModel dev1; DeviceModel dev2]) states answer None [].

Definition a_dict_mock (states : string -> result state_obj)
  (deadline : option nat) : Mock :=
  mkMock (Ok [dict1; dict2]) states (Ok (a_control 72)) deadline [].

(** A cache whose two entries are the merged dumps of a device and of a
    state at 70 degrees, with the six keys the entities read. *)
Definition cache_at_70 : gmap string (gmap string value) :=
  <["dev-2" := unpack (model_dump dev2) (model_dump (a_state 70))]>
    (<["dev-1" := unpack (model_dump dev1) (model_dump (a_state 70))]> ∅).

(** A coordinator over the two devices as models, with that cache. *)
Definition a_coordinator : SleepmeDataUpdateCoordinator :=
  mkCoordinator [DeviceModel dev1; DeviceModel dev2] (Some cache_at_70) 0 Idle.

(** A coordinator over the two mapping devices, after a cycle in which
    both reported 70 degrees. *)
Definition a_dict_coordinator : SleepmeDataUpdateCoordinator :=
  mkCoordinator [dict1; dict2] (Some (json_cache 70)) 0 Idle.

End Fixtures.

(* ===================================================================== *)
(** ** climate.py and binary_sensor.py *)
(* ===================================================================== *)

(** [const.py] is used by the entities and defined elsewhere, as are
    Python's [==] between values and [str()] of a value. *)
Class Constants := {
  DOMAIN : string;
  PRESET_MAX_HEAT : string;
  PRESET_MAX_COOL : string;
  PRESET_TEMPERATURES : list (string * value);
  BINARY_SENSOR_TYPES : list (string * string);
  py_eq : value -> value -> bool;
  py_str : value -> string
}.

(** What the entities share: reading the coordinator's cache. *)
Module Entity.
Import Api Coordinator.

#[global] Instance result_bind : MBind result := fun A B k r =>
  match r with
  | Ok a => k a
  | Err e => Err e
  end.

(** [coordinator.data[idx]]. *)
Definition data_getitem (coordinator : SleepmeDataUpdateCoordinator)
  (idx : string) : result (gmap string value) :=
  match data coordinator with
  | None => Err (raise_ TypeError "'NoneType' object is not subscriptable")
  | Some cache =>
      match cache !! idx with
      | None => Err (raise_ KeyError idx)
      | Some entry => Ok entry
      end
  end.

(** [entry[key]] and [entry.get(key, {})] on a cache entry. *)
Definition entry_getitem (key : string) (entry : gmap string value)
  : result value :=
  match entry !! key with
  | None => Err (raise_ KeyError key)
  | Some v => Ok v
  end.

Definition entry_get (key : string) (entry : gmap string value) : value :=
  default (VDict []) (entry !! key).

(** [v.get(key, dflt)] on a value taken out of an entry: only a
    dictionary has the method. [AttributeError] is not among the classes
    of [exn_class]; it is carried as its base [Exception]. *)
Definition py_get (key : string) (dflt : value) (v : value) : result value :=
  match v with
  | VDict kv => Ok (default dflt (dict_get key kv))
  | _ => Err (raise_ Exception "AttributeError: object has no attribute 'get'")
  end.

(** [v == s] for a string literal [s]. *)
Definition is_str (s : string) (v : value) : bool :=
  match v with
  | VStr s' => String.eqb s' s
  | _ => false
  end.

(** [try: body / except KeyError: LOGGER.error(f"...{coordinator.data[idx]}");
    return fallback]. The message of the handler subscripts the cache
    again, so the handler itself raises when the subscript does. *)
Definition except_KeyError {A} (coordinator : SleepmeDataUpdateCoordinator)
  (idx : string) (body : result A) (fallback : A) : result A :=
  match body with
  | Ok a => Ok a
  | Err e =>
      if isinstance e KeyError
      then _ ← data_getitem coordinator idx; Ok fallback
      else Err e
  end.

End Entity.

Module Climate.
Import Api Coordinator Entity.

Inductive HVACMode := OFF | HEAT | COOL | HEAT_COOL | AUTO | DRY | FAN_ONLY.

#[global] Instance HVACMode_eq_dec : EqDecision HVACMode.
Proof. solve_decision. Defined.

Definition PRESET_NONE : string := "none".

(** [_state] holds a bool after [__init__] and [async_update], a mode
    after [async_set_hvac_mode]. *)
Inductive state_attr :=
| StateBool (b : bool)
| StateMode (m : HVACMode).

(** [_attr_device_info]. *)
Record DeviceInfo := mkDeviceInfo {
  identifiers : list (string * string);
  info_name : value;
  manufacturer : string;
  info_model : value;
  sw_version : value;
  connections : list (string * value);
  info_serial_number : value
}.

(** The attributes of the entity; [ha_state_writes] counts the calls of
    the inherited [async_write_ha_state]. *)
Record SleepmeClimate := mkClimate {
  idx : string;
  _name : value;
  _unique_id : string;
  _attr_unique_id : string;
  _state : state_attr;
  _target_temperature : value;
  _current_temperature : value;
  _attr_device_info : DeviceInfo;
  ha_state_writes : nat
}.

(** A list or a dictionary cannot be a member of a set. *)
Definition hashable (v : value) : bool :=
  match v with
  | VList _ | VDict _ => false
  | _ => true
  end.

Section Climate.
Context `{Externals} `{Constants} {W : Type} `{Client W}.

Definition __init__ (coordinator : SleepmeDataUpdateCoordinator) (idx : string)
  : result SleepmeClimate :=
  data ← data_getitem coordinator idx;
  name ← entry_getitem "name" data;
  status ← py_get "thermal_control_status" VNone (entry_get "control" data);
  target ← py_get "set_temperature_f" VNone (entry_get "control" data);
  current ← py_get "water_temperature_f" VNone (entry_get "status" data);
  model ← py_get "model" VNone (entry_get "about" data);
  firmware ← py_get "firmware_version" VNone (entry_get "about" data);
  mac ← py_get "mac_address" VNone (entry_get "about" data);
  (if hashable mac then Ok tt
   else Err (raise_ TypeError "unhashable type"));;
  serial ← py_get "serial_number" VNone (entry_get "about" data);
  Ok (mkClimate idx name (idx +:+ "_climate")
        (DOMAIN +:+ "_" +:+ idx +:+ "_thermostat")
        (StateBool (is_str "active" status)) target current
        (mkDeviceInfo [(DOMAIN, idx)] name "SleepMe" model firmware
           [("mac", mac)] serial)
        0).

Definition hvac_modes : list HVACMode := [OFF; HEAT_COOL].
Definition min_temp : Z := 55.
Definition max_temp : Z := 115.
Definition name (self : SleepmeClimate) : value := _name self.
Definition target_temperature (self : SleepmeClimate) : value :=
  _target_temperature self.

(** The property also stores what it read in [_current_temperature]. *)
Definition current_temperature (self : SleepmeClimate)
  (coordinator : SleepmeDataUpdateCoordinator)
  : result value * SleepmeClimate :=
  let body :=
    entry ← data_getitem coordinator (idx self);
    py_get "water_temperature_f" VNone (entry_get "status" entry) in
  match body with
  | Ok v =>
      (Ok v,
       mkClimate (idx self) (_name self) (_unique_id self)
         (_attr_unique_id self) (_state self) (_target_temperature self) v
         (_attr_device_info self) (ha_state_writes self))
  | Err _ => (except_KeyError coordinator (idx self) body VNone, self)
  end.

Definition status_get (self : SleepmeClimate)
  (coordinator : SleepmeDataUpdateCoordinator) (key : string) (dflt : value)
  : result value :=
  entry ← data_getitem coordinator (idx self);
  py_get key dflt (entry_get "status" entry).

Definition extra_state_attributes (self : SleepmeClimate)
  (coordinator : SleepmeDataUpdateCoordinator)
  : result (list (string * value)) :=
  low ← status_get self coordinator "is_water_low" VNone;
  connected ← status_get self coordinator "is_connected" VNone;
  Ok [("is_water_low", low); ("is_connected", connected)].

Definition available (self : SleepmeClimate)
  (coordinator : SleepmeDataUpdateCoordinator) : result value :=
  status_get self coordinator "is_connected" (VBool false).

Definition hvac_mode (self : SleepmeClimate)
  (coordinator : SleepmeDataUpdateCoordinator) : result HVACMode :=
  except_KeyError coordinator (idx self)
    (entry ← data_getitem coordinator (idx self);
     status ← py_get "thermal_control_status" VNone (entry_get "control" entry);
     Ok (if is_str "active" status then HEAT_COOL else OFF))
    OFF.

Definition _determine_hvac_mode (thermal_control_status : value) : HVACMode :=
  if is_str "active" thermal_control_status then HEAT_COOL else OFF.

Fixpoint first_preset (target_temperature : value)
  (presets : list (string * value)) : string :=
  match presets with
  | [] => PRESET_NONE
  | (mode, target) :: rest =>
      if py_eq target_temperature target then mode
      else first_preset target_temperature rest
  end.

Definition _determine_preset_mode (target_temperature : value) : string :=
  first_preset target_temperature PRESET_TEMPERATURES.

Definition preset_modes : list string :=
  [PRESET_NONE; PRESET_MAX_HEAT; PRESET_MAX_COOL].

Definition preset_mode (self : SleepmeClimate)
  (coordinator : SleepmeDataUpdateCoordinator) : result string :=
  mode ← hvac_mode self coordinator;
  if decide (mode = OFF) then Ok PRESET_NONE
  else
    entry ← data_getitem coordinator (idx self);
    target ← py_get "set_temperature_c" VNone (entry_get "control" entry);
    Ok (_determine_preset_mode target).

(** [async_set_temperature(temperature=...)] for an integer argument, of
    which [int()] is the argument itself; [None] stands for a call
    without the keyword. *)
Definition async_set_temperature (self : SleepmeClimate)
  (temperature : option Z) (coordinator : SleepmeDataUpdateCoordinator) (w : W)
  : result unit * SleepmeClimate * SleepmeDataUpdateCoordinator * W :=
  match temperature with
  | None => (Ok tt, self, coordinator, w)
  | Some temperature =>
      match Coordinator.async_set_device_temperature coordinator (idx self)
              temperature w with
      | (Err e, coordinator', w') => (Err e, self, coordinator', w')
      | (Ok _, coordinator', w') =>
          (Ok tt,
           mkClimate (idx self) (_name self) (_unique_id self)
             (_attr_unique_id self) (_state self) (VInt temperature)
             (_current_temperature self) (_attr_device_info self)
             (S (ha_state_writes self)),
           coordinator', w')
      end
  end.

Definition async_set_hvac_mode (self : SleepmeClimate) (hvac_mode : HVACMode)
  (coordinator : SleepmeDataUpdateCoordinator) (w : W)
  : result unit * SleepmeClimate * SleepmeDataUpdateCoordinator * W :=
  let mode := if decide (hvac_mode = HEAT_COOL) then "active" else "standby" in
  match Coordinator.async_set_device_mode coordinator (idx self) mode w with
  | (Err e, coordinator', w') => (Err e, self, coordinator', w')
  | (Ok _, coordinator', w') =>
      (Ok tt,
       mkClimate (idx self) (_name self) (_unique_id self)
         (_attr_unique_id self)
         (StateMode (if String.eqb mode "active" then HEAT_COOL else OFF))
         (_target_temperature self) (_current_temperature self)
         (_attr_device_info self) (S (ha_state_writes self)),
       coordinator', w')
  end.

End Climate.

End Climate.

Module BinarySensor.
Import Api Coordinator Entity.

Record SleepmeBinarySensor := mkBinarySensor {
  idx : string;
  _sensor_type : string;
  _name : string;
  _unique_id : string
}.

Section BinarySensor.
Context `{Constants}.

(** [BINARY_SENSOR_TYPES[sensor_type]]. *)
Fixpoint types_getitem (sensor_type : string) (types : list (string * string))
  : result string :=
  match types with
  | [] => Err (raise_ KeyError sensor_type)
  | (k, label) :: rest =>
      if String.eqb sensor_type k then Ok label
      else types_getitem sensor_type rest
  end.

Definition __init__ (coordinator : SleepmeDataUpdateCoordinator)
  (idx sensor_type : string) : result SleepmeBinarySensor :=
  data ← data_getitem coordinator idx;
  name ← entry_getitem "name" data;
  label ← types_getitem sensor_type BINARY_SENSOR_TYPES;
  Ok (mkBinarySensor idx sensor_type (py_str name +:+ " " +:+ label)
        (idx +:+ "_" +:+ sensor_type)).

Definition name (self : SleepmeBinarySensor) : string := _name self.
Definition unique_id (self : SleepmeBinarySensor) : string := _unique_id self.

(** [None] is what the handler returns. *)
Definition is_on (self : SleepmeBinarySensor)
  (coordinator : SleepmeDataUpdateCoordinator) : result value :=
  except_KeyError coordinator (idx self)
    (entry ← data_getitem coordinator (idx self);
     py_get (_sensor_type self) (VBool false) (entry_get "status" entry))
    VNone.

End BinarySensor.

End BinarySensor.

(** Constants and an entity used in the examples of the entities. *)
Module EntityFixtures.
Import Api Coordinator Entity Fixtures.

Definition example_py_eq (a b : value) : bool :=
  match a, b with
  | VInt x, VInt y => (x =? y)%Z
  | VDec x, VDec y =>
      Bool.eqb (dec_neg x) (dec_neg y) && (dec_coeff x =? dec_coeff y)%N
      && (dec_exp x =? dec_exp y)%Z
  | VStr x, VStr y => String.eqb x y
  | _, _ => false
  end.

#[global] Instance example_constants : Constants := {
  DOMAIN := "sleepme_thermostat";
  PRESET_MAX_HEAT := "Max Heat";
  PRESET_MAX_COOL := "Max Cool";
  PRESET_TEMPERATURES :=
    [("Max Heat", VInt 999); ("Max Cool", VInt (-1))];
  BINARY_SENSOR_TYPES :=
    [("is_water_low", "Water Low"); ("is_connected", "Connected")];
  py_eq := example_py_eq;
  py_str v := match v with VStr s => s | _ => "" end
}.

(** A coordinator that has not refreshed yet, and one whose cache lacks
    the device. *)
Definition not_refreshed : SleepmeDataUpdateCoordinator :=
  mkCoordinator [DeviceModel dev1; DeviceModel dev2] None 0 Idle.

Definition without_dev1 : SleepmeDataUpdateCoordinator :=
  mkCoordinator [DeviceModel dev2]
    (Some (<["dev-2" := unpack (model_dump dev2) (model_dump (a_state 70))]> ∅))
    0 Idle.

Definition a_climate : Climate.SleepmeClimate :=
  Climate.mkClimate "dev-1" (VStr "Bedroom") "dev-1_climate"
    "sleepme_thermostat_dev-1_thermostat" (Climate.StateBool true)
    (VDec (dec_of_Z 70)) (VDec (mkDecimal false 734 (-1)))
    (Climate.mkDeviceInfo [("sleepme_thermostat", "dev-1")] (VStr "Bedroom")
       "SleepMe" (VStr "DP999NA") (VStr "5.39")
       [("mac", VStr "aa:bb:cc:dd:ee:ff")] (VStr "SN-1"))
    0.

Definition a_sensor : BinarySensor.SleepmeBinarySensor :=
  BinarySensor.mkBinarySensor "dev-1" "is_water_low" "Bedroom Water Low"
    "dev-1_is_water_low".

Definition a_connected_sensor : BinarySensor.SleepmeBinarySensor :=
  BinarySensor.mkBinarySensor "dev-1" "is_connected" "Bedroom Connected"
    "dev-1_is_connected".

Definition another_climate : Climate.SleepmeClimate :=
  Climate.mkClimate "dev-2" (VStr "Guest") "dev-2_climate"
    "sleepme_thermostat_dev-2_thermostat" (Climate.StateBool true)
    (VDec (dec_of_Z 70)) (VDec (mkDecimal false 734 (-1)))
    (Climate.mkDeviceInfo [("sleepme_thermostat", "dev-2")] (VStr "Guest")
       "SleepMe" (VStr "DP999NA") (VStr "5.39")
       [("mac", VStr "aa:bb:cc:dd:ee:ff")] (VStr "SN-1"))
    0.

Definition another_sensor : BinarySensor.SleepmeBinarySensor :=
  BinarySensor.mkBinarySensor "dev-2" "is_water_low" "Guest Water Low"
    "dev-2_is_water_low".

(** A remote whose answer depends on the request. *)
Definition answers_by_method (get patch : aiohttp.ClientResponse)
  : aiohttp.request -> result aiohttp.ClientResponse :=
  fun r => match aiohttp.method r with
           | aiohttp.GET => Ok get
           | _ => Ok patch
           end.

End EntityFixtures.

(* ===================================================================== *)
(** ** Properties of the client *)
(* ===================================================================== *)

Section ApiFacts.
Import aiohttp Api.
Context `{ext : Externals}.

Lemma api_wrapper_unfold {T} `{BaseModel T} (self : SleepmeApiClient)
  method url data :
  api_wrapper (T := T) self method url data =
  let verdict := can_send_request (_rate_limiter self) in
  let attempt := api_wrapper_try self (built_request self method url data) in
  mkCall ((if verdict.1 then [] else [LogInfo "Rate limit exceeded"]) ++ attempt.1)
         (match attempt.2 with
          | Ok t => Ok t
          | Err exception => Err (api_wrapper_except exception)
          end)
         verdict.2.
Proof.
  unfold api_wrapper, built_request.
  destruct (can_send_request (_rate_limiter self)) as [allowed l].
  destruct (api_wrapper_try _ _) as [evs r]. reflexivity.
Qed.

(** The session and the key decide the attempt; the limiter plays no part. *)
Lemma api_wrapper_try_limiter {T} `{BaseModel T} key session l1 l2 req :
  api_wrapper_try (T := T) (mkClient key session l1) req =
  api_wrapper_try (T := T) (mkClient key session l2) req.
Proof. reflexivity. Qed.

Lemma sent_app evs1 evs2 : sent (evs1 ++ evs2) = (sent evs1 ++ sent evs2)%list.
Proof. unfold sent. apply omap_app. Qed.

Lemma sent_api_wrapper_try {T} `{BaseModel T} (self : SleepmeApiClient) req :
  sent (api_wrapper_try (T := T) self req).1 = [req].
Proof.
  unfold api_wrapper_try.
  destruct (_session self req) as [response|e]; [|reflexivity].
  destruct (_verify_response_or_raise response); [|reflexivity].
  destruct (read response); reflexivity.
Qed.

(** Whatever is raised inside the [try] leaves as one of two classes. *)
Lemma api_wrapper_except_cls (e : exn) :
  exn_cls (api_wrapper_except e) =
  if isinstance e TimeoutError || isinstance e ClientError || isinstance e gaierror
  then SleepmeApiClientCommunicationError
  else SleepmeApiClientError.
Proof.
  unfold api_wrapper_except.
  destruct (isinstance e TimeoutError); simpl; [reflexivity|].
  destruct (isinstance e ClientError || isinstance e gaierror); reflexivity.
Qed.

(** No path out of [api_wrapper] raises the authentication or the
    rate-limit class: both are raised inside the [try] and caught by its
    last clause. *)
Lemma api_wrapper_never_raises_subclass {T} `{BaseModel T}
  (self : SleepmeApiClient) method url data (e : exn) :
  returned (api_wrapper (T := T) self method url data) = Err e ->
  exn_cls e = SleepmeApiClientCommunicationError \/
  exn_cls e = SleepmeApiClientError.
Proof.
  rewrite api_wrapper_unfold. simpl.
  destruct (api_wrapper_try _ _).2 as [t|e0]; [discriminate|].
  intros [= <-]. rewrite api_wrapper_except_cls.
  destruct (_ || _); auto.
Qed.

(** X4. A status other than 401, 403 and 429 that is not below 400 is
    reported as a communication error. *)
Lemma error_status_is_communication_error {T} `{BaseModel T}
  (self : SleepmeApiClient) method url data response :
  _session self (built_request self method url data) = Ok response ->
  (400 <= aiohttp.status response)%Z ->
  aiohttp.status response <> 401%Z -> aiohttp.status response <> 403%Z ->
  aiohttp.status response <> 429%Z ->
  exists e, returned (api_wrapper (T := T) self method url data) = Err e /\
            exn_cls e = SleepmeApiClientCommunicationError.
Proof.
  intros Hs Hge H1 H3 H9. rewrite api_wrapper_unfold. simpl.
  unfold api_wrapper_try. rewrite Hs.
  unfold _verify_response_or_raise, UNAUTHORIZED, FORBIDDEN, TOO_MANY_REQUESTS.
  rewrite !bool_decide_eq_false_2 by done. simpl.
  unfold raise_for_status, ok.
  destruct (Z.ltb_spec (aiohttp.status response) 400); [lia|]. simpl.
  eexists; split; [reflexivity|]. reflexivity.
Qed.

(** A timeout and a failure of the network are communication errors. *)
Lemma network_failure_is_communication_error {T} `{BaseModel T}
  (self : SleepmeApiClient) method url data e0 :
  _session self (built_request self method url data) = Err e0 ->
  isinstance e0 TimeoutError || isinstance e0 ClientError
    || isinstance e0 gaierror = true ->
  exists e, returned (api_wrapper (T := T) self method url data) = Err e /\
            exn_cls e = SleepmeApiClientCommunicationError /\
            exn_cause e = Some e0.
Proof.
  intros Hs Hc. rewrite api_wrapper_unfold. simpl.
  unfold api_wrapper_try. rewrite Hs. simpl.
  eexists; split; [reflexivity|]. rewrite api_wrapper_except_cls, Hc.
  split; [reflexivity|].
  unfold api_wrapper_except.
  destruct (isinstance e0 TimeoutError); [reflexivity|].
  destruct (_ || _); reflexivity.
Qed.

(** X6. A body that does not fit the model (not JSON at all, or JSON
    that fails validation) is reported as the generic error. *)
Lemma invalid_body_is_generic_error {T} `{BaseModel T}
  (self : SleepmeApiClient) method url data response content :
  _session self (built_request self method url data) = Ok response ->
  (aiohttp.status response < 400)%Z ->
  read response = Ok content ->
  (json_loads content ≫= model_validate (T := T)) = None ->
  exists e, returned (api_wrapper (T := T) self method url data) = Err e /\
            exn_cls e = SleepmeApiClientError.
Proof.
  intros Hs Hlt Hr Hv. rewrite api_wrapper_unfold. simpl.
  unfold api_wrapper_try. rewrite Hs.
  unfold _verify_response_or_raise, UNAUTHORIZED, FORBIDDEN, TOO_MANY_REQUESTS.
  rewrite !bool_decide_eq_false_2 by lia. simpl.
  unfold raise_for_status, ok.
  destruct (Z.ltb_spec (aiohttp.status response) 400); [|lia].
  rewrite Hr. simpl. unfold model_validate_json.
  destruct (json_loads content) as [v|]; simpl in *.
  - rewrite Hv. eexists; split; reflexivity.
  - eexists; split; reflexivity.
Qed.

(** A response below 400 whose body fits the model is returned. *)
Lemma valid_body_is_returned {T} `{BaseModel T}
  (self : SleepmeApiClient) method url data response content v t :
  _session self (built_request self method url data) = Ok response ->
  (aiohttp.status response < 400)%Z ->
  read response = Ok content ->
  json_loads content = Some v ->
  model_validate (T := T) v = Some t ->
  returned (api_wrapper (T := T) self method url data) = Ok t.
Proof.
  intros Hs Hlt Hr Hj Hv. rewrite api_wrapper_unfold. simpl.
  unfold api_wrapper_try. rewrite Hs.
  unfold _verify_response_or_raise, UNAUTHORIZED, FORBIDDEN, TOO_MANY_REQUESTS.
  rewrite !bool_decide_eq_false_2 by lia. simpl.
  unfold raise_for_status, ok.
  destruct (Z.ltb_spec (aiohttp.status response) 400); [|lia].
  rewrite Hr. simpl. unfold model_validate_json. rewrite Hj, Hv. reflexivity.
Qed.

End ApiFacts.

Section ApiClaims.
Import aiohttp Api Fixtures.

(** C1. Claimed: a 401 or 403 status raises the authentication error and
    a 429 status the rate-limit error. In the code both are raised by
    [_verify_response_or_raise] inside the [try] of [api_wrapper], whose
    last clause catches every [Exception]: at a 401 answer to
    [async_get_device_state] the caller receives the generic
    [SleepmeApiClientError], with the authentication error as its cause,
    and that exception is not an instance of the authentication class. *)
Theorem unauthorized_leaves_as_generic_error :
  let raised :=
    Exn SleepmeApiClientError
      "Something really wrong happened! - Invalid credentials"
      (Some (Exn SleepmeApiClientAuthenticationError "Invalid credentials" None)) in
  returned (Api.async_get_device_state
              (example_client (answers 401 "<empty object>")) "dev-1")
    = Err raised /\
  isinstance raised SleepmeApiClientAuthenticationError = false /\
  exn_cls raised = SleepmeApiClientError.
Proof. vm_compute. auto. Qed.

(** The same happens at 403, and at 429 for the rate-limit class. *)
Lemma forbidden_and_throttled_leave_as_generic_error :
  (exists e, returned (Api.async_set_device_mode
                         (example_client (answers 403 "")) "dev-1" "active")
               = Err e /\ exn_cls e = SleepmeApiClientError) /\
  (exists e, returned (Api.async_get_devices (example_client (answers 429 "")))
               = Err e /\ exn_cls e = SleepmeApiClientError /\
             isinstance e SleepmeApiClientRateLimitError = false).
Proof. split; eexists; vm_compute; auto. Qed.

Context `{ext : Externals}.

(** C7. [async_get_devices] returns the devices of the remote collection
    that carry the [CHILIPAD_PRO] attachment, in the order of the
    collection, and a further call against the same remote returns the
    same sequence whatever the state of the rate limiter. *)
Theorem async_get_devices_filters_in_order (self : SleepmeApiClient)
  (response : ClientResponse) (content : string) (v : value)
  (collection : SleepmeDevices) :
  _session self (built_request self GET devices_url None) = Ok response ->
  (aiohttp.status response < 400)%Z ->
  read response = Ok content ->
  json_loads content = Some v ->
  model_validate v = Some collection ->
  let listed :=
    filter (fun d => is_chilipad_pro d = true) (devices collection) in
  returned (Api.async_get_devices self) = Ok listed /\
  (forall d, d ∈ listed <->
             d ∈ devices collection /\ "CHILIPAD_PRO" ∈ attachments d) /\
  sublist listed (devices collection) /\
  (forall l : RateLimiter,
     returned (Api.async_get_devices
                 (mkClient (_api_key self) (_session self) l)) = Ok listed).
Proof.
  intros Hs Hlt Hr Hj Hv listed.
  assert (Hcall : forall l : RateLimiter,
     returned (Api.async_get_devices
                 (mkClient (_api_key self) (_session self) l)) = Ok listed).
  { intros l. unfold Api.async_get_devices. simpl.
    erewrite valid_body_is_returned; eauto. }
  split; [|split; [|split]].
  - destruct self as [key session l0]. apply Hcall.
  - intros d. unfold listed. rewrite list_elem_of_filter.
    unfold is_chilipad_pro. rewrite bool_decide_eq_true. tauto.
  - apply sublist_filter.
  - exact Hcall.
Qed.

(** C8. When the limiter reports no capacity the call sends the very
    request it sends when there is capacity (same method, url, headers and
    body), returns or raises the same, and differs only by one log record
    in front. *)
Theorem rate_limit_is_advisory {T} `{BaseModel T} (key : string)
  (session : request -> result ClientResponse) (denying allowing : RateLimiter)
  (method : HTTPMethod) (url : string) (data : option (list (string * value))) :
  (can_send_request denying).1 = false ->
  (can_send_request allowing).1 = true ->
  let denied := api_wrapper (T := T) (mkClient key session denying) method url data in
  let allowed := api_wrapper (T := T) (mkClient key session allowing) method url data in
  sent (events denied) =
    [mkRequest method url
       (HEADERS ++ [("Authorization", "Bearer " +:+ key)])%list (default [] data)] /\
  sent (events denied) = sent (events allowed) /\
  returned denied = returned allowed /\
  events denied = LogInfo "Rate limit exceeded" :: events allowed.
Proof.
  intros Hd Ha denied allowed. unfold denied, allowed.
  rewrite !api_wrapper_unfold. simpl. rewrite Hd, Ha. simpl.
  rewrite !sent_api_wrapper_try. auto.
Qed.

(** Reading back what a device dumps to gives the device. *)
Lemma validate_dump_device (d : SleepmeDevice) :
  model_validate (model_dump d) = Some d.
Proof.
  destruct d as [i n a]. simpl. unfold with_default. simpl.
  rewrite mapM_fmap_Some; [reflexivity|]. reflexivity.
Qed.

(** C10. A bare array of device objects validates as the collection (the
    validator wraps it into the [devices] field), the collection dumps to
    a bare array again, of the dumps of its devices, which validates to
    the same collection; on an array of dumped devices, validating and
    dumping gives the array back. *)
Theorem devices_array_round_trip (l : list value) :
  Forall (fun v => is_Some (model_validate (T := SleepmeDevice) v)) l ->
  exists ds : list SleepmeDevice,
    model_validate (T := SleepmeDevices) (VList l) = Some (mkDevices ds) /\
    Forall2 (fun v d => model_validate v = Some d) l ds /\
    model_dump (mkDevices ds) = VList (model_dump <$> ds) /\
    model_validate (T := SleepmeDevices) (model_dump (mkDevices ds))
      = Some (mkDevices ds) /\
    (forall ds0 : list SleepmeDevice,
       l = model_dump <$> ds0 -> model_dump (mkDevices ds) = VList l).
Proof.
  intros Hl.
  destruct (mapM_is_Some_2 (model_validate (T := SleepmeDevice)) l Hl)
    as [ds Hds].
  exists ds. split; [|split; [|split; [|split]]].
  - change (model_validate (T := SleepmeDevices) (VList l))
      with (mapM (model_validate (T := SleepmeDevice)) l ≫=
            fun ds' => Some (mkDevices ds')).
    rewrite Hds. reflexivity.
  - by apply mapM_Some_1.
  - reflexivity.
  - change (model_validate (T := SleepmeDevices) (model_dump (mkDevices ds)))
      with (mapM (model_validate (T := SleepmeDevice))
              (model_dump (T := SleepmeDevice) <$> ds) ≫=
            fun ds' => Some (mkDevices ds')).
    rewrite (mapM_fmap_Some _ _ ds validate_dump_device). reflexivity.
  - intros ds0 ->. change (model_dump (mkDevices ds))
      with (VList (model_dump (T := SleepmeDevice) <$> ds)).
    rewrite (mapM_fmap_Some _ _ ds0 validate_dump_device) in Hds.
    by injection Hds as ->.
Qed.


End ApiClaims.

(* ===================================================================== *)
(** ** Properties of the coordinator *)
(* ===================================================================== *)

Section CoordinatorFacts.
Import aiohttp Api Coordinator.
Context `{ext : Externals} {W : Type} `{cl : Client W} `{clk : Clock W}.

Lemma fetch_loop_app (pre post : list device_obj)
  (results : gmap string (gmap string value)) (w : W) :
  fetch_loop (pre ++ post) results w =
  match fetch_loop pre results w with
  | (Ok results', w') => fetch_loop post results' w'
  | (Err e, w') => (Err e, w')
  end.
Proof.
  revert results w. induction pre as [|d pre IH]; intros results w; simpl.
  - reflexivity.
  - destruct (fetch_one d w) as [[[i entry]|e] w1];
      [apply IH | reflexivity].
Qed.

(** A run of turns that all complete carries the loop over that run,
    and this is what the loop leaves in the results. *)
Lemma fetch_loop_fetched (ds : list device_obj)
  (entries : list (string * gmap string value))
  (results : gmap string (gmap string value)) (w w' : W) :
  fetched w ds entries w' ->
  exists results',
    fetch_loop ds results w = (Ok results', w') /\
    dom results' = dom results ∪ list_to_set entries.*1 /\
    (forall k, k ∉ entries.*1 -> results' !! k = results !! k) /\
    (forall i device_id entry,
       entries !! i = Some (device_id, entry) ->
       (forall j device_id' entry', (i < j)%nat ->
          entries !! j = Some (device_id', entry') -> device_id' <> device_id) ->
       results' !! device_id = Some entry).
Proof.
  intros Hf. revert results.
  induction Hf as [w|w w1 w2 d rest i entry entries Hd _ IH];
    intros results; simpl.
  - exists results. split; [reflexivity|]. split; [set_solver|].
    split; [done|]. intros k i entry Hk. done.
  - rewrite Hd.
    destruct (IH (<[i := entry]> results)) as (r & Hl & Hdom & Hout & Hin).
    exists r. split; [exact Hl|].
    split; [rewrite Hdom, dom_insert_L; set_solver|].
    split.
    + intros k Hk. rewrite Hout by set_solver.
      apply lookup_insert_ne. set_solver.
    + intros [|k] i0 entry0 Hk Hlast; simpl in *.
      * injection Hk as <- <-.
        rewrite Hout; [apply lookup_insert_eq|].
        intros Hmem. apply list_elem_of_fmap in Hmem as ([i' e'] & Heq & Hie).
        simpl in Heq. subst i'.
        apply list_elem_of_lookup in Hie as [j Hj].
        apply (Hlast (S j) i e'); [lia|done|done].
      * apply (Hin k i0 entry0 Hk).
        intros j i' e' Hkj Hj. apply (Hlast (S j) i' e'); [lia|done].
Qed.

(** The loop stops at the first turn that raises, with that exception. *)
Lemma fetch_loop_stops (pre post : list device_obj) (d : device_obj)
  (entries : list (string * gmap string value)) (w w1 w2 : W) (e : exn) :
  fetched w pre entries w1 ->
  fetch_one d w1 = (Err e, w2) ->
  fetch_loop (pre ++ d :: post) ∅ w = (Err e, w2).
Proof.
  intros Hf He. rewrite fetch_loop_app.
  destruct (fetch_loop_fetched pre entries ∅ w w1 Hf) as (r & -> & _).
  simpl. rewrite He. reflexivity.
Qed.

(** How the loop ends: after a turn for every device, or at the first
    turn that raises. *)
Lemma fetch_loop_outcome (ds : list device_obj)
  (results : gmap string (gmap string value)) (w : W) :
  match fetch_loop ds results w with
  | (Ok _, w') => exists entries, fetched w ds entries w'
  | (Err e, w') =>
      exists pre d post entries w1,
        ds = pre ++ d :: post /\ fetched w pre entries w1 /\
        fetch_one d w1 = (Err e, w')
  end.
Proof.
  revert results w. induction ds as [|d rest IH]; intros results w; simpl.
  - exists []. constructor.
  - destruct (fetch_one d w) as [[[i entry]|e] w1] eqn:Hd.
    + specialize (IH (<[i := entry]> results) w1).
      destruct (fetch_loop rest _ w1) as [[r|e] w2].
      * destruct IH as [entries Hf]. exists ((i, entry) :: entries).
        econstructor; eauto.
      * destruct IH as (pre & d' & post & entries & w1' & -> & Hf & He).
        exists (d :: pre), d', post, ((i, entry) :: entries), w1'.
        split; [reflexivity|]. split; [econstructor; eauto|exact He].
    + exists [], d, rest, [], w. split; [reflexivity|].
      split; [constructor|exact Hd].
Qed.

(** A turn whose fetch raises before the deadline raises the same. *)
Lemma fetch_one_fetch_raises (d : device_obj) (device_id : string)
  (w w' : W) (e : exn) :
  device_id_of d = Ok device_id ->
  client_async_get_device_state device_id w = (Err e, w') ->
  expired w' = false ->
  fetch_one d w = (Err e, w').
Proof.
  intros Hid He Hexp. unfold fetch_one, await_device_state.
  rewrite Hid, He, Hexp. reflexivity.
Qed.

(** What a completed turn did. *)
Lemma fetch_one_completes (d : device_obj) (device_id : string)
  (entry : gmap string value) (w w' : W) :
  fetch_one d w = (Ok (device_id, entry), w') ->
  device_id_of d = Ok device_id /\
  exists data dv sv,
    client_async_get_device_state device_id w = (Ok data, w') /\
    expired w' = false /\
    device_mapping d = Ok dv /\ state_mapping data = Ok sv /\
    entry = sv ∪ dv /\ json_dumps entry = Ok tt.
Proof.
  unfold fetch_one, await_device_state, unpack_objects.
  destruct (device_id_of d) as [i|e]; [|discriminate].
  destruct (client_async_get_device_state i w) as [r w1] eqn:Hget.
  destruct (expired w1) eqn:Hexp; cbv beta iota; [discriminate|].
  destruct r as [data|e]; [|discriminate].
  destruct (device_mapping d) as [dv|e] eqn:Hdv; cbv beta iota; [|discriminate].
  destruct (state_mapping data) as [sv|e] eqn:Hsv; cbv beta iota; [|discriminate].
  destruct (device_getitem d "name") as [n|e]; [|discriminate].
  destruct (json_dumps (sv ∪ dv)) as [[]|e] eqn:Hjson; [|discriminate].
  intros [= <- <- <-]. split; [reflexivity|].
  exists data, dv, sv. repeat split; done.
Qed.

(** A client error is not the scheduler's authentication failure. *)
Lemma client_error_is_not_auth_failed (e : exn) :
  isinstance e SleepmeApiClientError = true ->
  isinstance e ConfigEntryAuthFailed = false.
Proof. destruct e as [[] m c]; vm_compute; congruence. Qed.


End CoordinatorFacts.

Section CoordinatorClaims.
Import aiohttp Api Coordinator.
Context `{ext : Externals} {W : Type} `{cl : Client W} `{clk : Clock W}.

(** C2, as the code has it. When the fetch of a device raises a client
    error other than the authentication error (a communication error,
    for one) before the deadline, after the turns of the devices before
    it completed, the cycle ends there: no later device is fetched (the
    client is left as that fetch left it), the same error leaves
    [_async_update_data], the coordinator is unchanged, so every cache
    entry keeps its prior value, and it stays [Idle]. *)
Theorem failed_fetch_fails_the_cycle (self : SleepmeDataUpdateCoordinator)
  (pre post : list device_obj) (d : device_obj)
  (entries : list (string * gmap string value)) (device_id : string)
  (w w1 w2 : W) (e : exn) :
  state self = Idle ->
  _devices self = pre ++ d :: post ->
  fetched w pre entries w1 ->
  device_id_of d = Ok device_id ->
  client_async_get_device_state device_id w1 = (Err e, w2) ->
  expired w2 = false ->
  isinstance e SleepmeApiClientError = true ->
  isinstance e SleepmeApiClientAuthenticationError = false ->
  _async_update_data self w = (Err e, w2) /\
  _async_refresh self w = (self, w2).
Proof.
  intros Hidle Hds Hf Hid He Hexp Hcli Hauth.
  pose proof (fetch_one_fetch_raises d device_id w1 w2 e Hid He Hexp) as Hone.
  assert (Hupd : _async_update_data self w = (Err e, w2)).
  { unfold _async_update_data. rewrite Hds.
    rewrite (fetch_loop_stops pre post d entries w w1 w2 e Hf Hone).
    unfold _async_update_data_except. rewrite Hauth, Hcli. reflexivity. }
  split; [exact Hupd|].
  unfold _async_refresh. rewrite Hidle, Hupd.
  rewrite (client_error_is_not_auth_failed e Hcli). reflexivity.
Qed.

(** C3, as the code has it. After a successful mutation call for a device
    that has a cache entry, nothing outside the control and status
    sub-records of that entry has changed: every other key of the entry,
    the entry of every other device, the device list and the phase are
    as before, and the coordinator has notified no listener. *)
Theorem mutation_changes_one_entry_and_notifies_nobody (op : mutation)
  (self : SleepmeDataUpdateCoordinator) (device_id : string) (w w' : W)
  (answer : SleepmeDeviceControl)
  (cache : gmap string (gmap string value)) (entry : gmap string value) :
  client_mutate op device_id w = (Ok answer, w') ->
  data self = Some cache ->
  cache !! device_id = Some entry ->
  exists self',
    mutate op self device_id w = (Ok tt, self', w') /\
    notified self' = notified self /\
    _devices self' = _devices self /\
    state self' = state self /\
    (forall other, other <> device_id ->
       cache_entry self' other = cache_entry self other) /\
    (forall key, key <> "control" -> key <> "status" ->
       sub_record self' device_id key = entry !! key).
Proof.
  intros Hc Hd He.
  exists (mkCoordinator (_devices self)
            (Some (<[device_id := <["status" := model_dump answer]> entry]> cache))
            (notified self) (state self)).
  split.
  { destruct op; simpl in *;
      [unfold async_set_device_temperature | unfold async_set_device_mode];
      rewrite Hc; unfold set_status; rewrite Hd, He; reflexivity. }
  repeat split.
  - intros other Hne. unfold cache_entry. simpl. rewrite Hd. simpl.
    by apply lookup_insert_ne.
  - intros key _ Hkey. unfold sub_record, cache_entry. simpl.
    rewrite lookup_insert_eq. simpl. by apply lookup_insert_ne.
Qed.

(** C4. When the client call of a mutation raises, the mutation raises
    the same exception and the coordinator, its whole cache included, is
    as before. *)
Theorem failed_mutation_leaves_cache (op : mutation)
  (self : SleepmeDataUpdateCoordinator) (device_id : string) (w w' : W)
  (e : exn) :
  client_mutate op device_id w = (Err e, w') ->
  mutate op self device_id w = (Err e, self, w').
Proof.
  intros Hc. destruct op; simpl in *.
  - unfold async_set_device_temperature. rewrite Hc. reflexivity.
  - unfold async_set_device_mode. rewrite Hc. reflexivity.
Qed.

(** C5. After a refresh cycle that returned, the cache holds exactly the
    ids of the devices that setup stored, and the entry of each device is
    the merge of the device (as the mapping it is) with the state fetched
    for its id in the cycle, the keys of the state winning. *)
Theorem successful_cycle_cache (self0 self1 self : SleepmeDataUpdateCoordinator)
  (w0 w1 w w' : W) (results : gmap string (gmap string value)) :
  _async_setup self0 w0 = (Ok tt, self1, w1) ->
  _devices self = _devices self1 ->
  state self = Idle ->
  _async_update_data self w = (Ok results, w') ->
  exists (ds : list device_obj) (entries : list (string * gmap string value)),
    client_async_get_devices w0 = (Ok ds, w1) /\
    _devices self = ds /\
    fetched w ds entries w' /\
    _async_refresh self w =
      (mkCoordinator ds (Some results) (S (notified self)) Idle, w') /\
    dom results = list_to_set entries.*1 /\
    Forall2 (fun d item => device_id_of d = Ok item.1) ds entries /\
    (forall i d device_id entry,
       ds !! i = Some d -> entries !! i = Some (device_id, entry) ->
       (exists dv data sv w2 w3,
          device_mapping d = Ok dv /\
          client_async_get_device_state device_id w2 = (Ok data, w3) /\
          state_mapping data = Ok sv /\ entry = sv ∪ dv) /\
       ((forall j device_id' entry', (i < j)%nat ->
           entries !! j = Some (device_id', entry') -> device_id' <> device_id) ->
        results !! device_id = Some entry)).
Proof.
  intros Hsetup Hsame Hidle Hupd.
  unfold _async_setup in Hsetup.
  destruct (client_async_get_devices w0) as [[ds|e] w1'] eqn:Hget;
    [|discriminate].
  destruct (device_names ds); [|discriminate].
  injection Hsetup as <- <-. simpl in Hsame.
  assert (Hloop : fetch_loop ds ∅ w = (Ok results, w')).
  { unfold _async_update_data in Hupd. rewrite Hsame in Hupd.
    destruct (fetch_loop ds ∅ w) as [[r|e] w2]; [|discriminate].
    by injection Hupd as <- <-. }
  pose proof (fetch_loop_outcome ds ∅ w) as Hout. rewrite Hloop in Hout.
  destruct Hout as [entries Hf].
  destruct (fetch_loop_fetched ds entries ∅ w w' Hf)
    as (r & Hloop' & Hdom & _ & Hin).
  rewrite Hloop in Hloop'. injection Hloop' as <-.
  exists ds, entries. split; [reflexivity|]. split; [exact Hsame|].
  split; [exact Hf|]. split.
  { unfold _async_refresh. rewrite Hidle, Hupd, Hsame. reflexivity. }
  split; [rewrite Hdom; set_solver|].
  split.
  { clear -Hf. induction Hf as [|? ? ? ? ? ? ? ? Hone _ IH]; constructor.
    - apply fetch_one_completes in Hone as [Hid _]. exact Hid.
    - exact IH. }
  intros i d device_id entry Hd He. split; [|by apply Hin].
  clear -Hf Hd He. revert i Hd He.
  induction Hf as [|w w2 w3 d0 rest i0 entry0 entries Hone _ IH];
    intros [|i] Hd He; simpl in *; try discriminate.
  - injection Hd as <-. injection He as <- <-.
    apply fetch_one_completes in Hone
      as (_ & data & dv & sv & Hget & _ & Hdv & Hsv & Hentry & _).
    exists dv, data, sv, w, w2. auto.
  - by apply (IH i).
Qed.

(** C6. When the fetch of a device raises the authentication error
    before the deadline, after the turns of the devices before it
    completed, the cycle ends there: no later device is fetched,
    [_async_update_data] raises [ConfigEntryAuthFailed] with that error
    as its cause, the cache is not replaced, the coordinator becomes
    [Halted], and a halted coordinator runs no further cycle. *)
Theorem authentication_failure_halts (self : SleepmeDataUpdateCoordinator)
  (pre post : list device_obj) (d : device_obj)
  (entries : list (string * gmap string value)) (device_id : string)
  (w w1 w2 : W) (e : exn) :
  state self = Idle ->
  _devices self = pre ++ d :: post ->
  fetched w pre entries w1 ->
  device_id_of d = Ok device_id ->
  client_async_get_device_state device_id w1 = (Err e, w2) ->
  expired w2 = false ->
  isinstance e SleepmeApiClientAuthenticationError = true ->
  let raised := raise_from ConfigEntryAuthFailed (str e) e in
  let halted :=
    mkCoordinator (_devices self) (data self) (notified self) Halted in
  _async_update_data self w = (Err raised, w2) /\
  isinstance raised ConfigEntryAuthFailed = true /\
  isinstance raised SleepmeApiClientError = false /\
  _async_refresh self w = (halted, w2) /\
  (forall w3, _async_refresh halted w3 = (halted, w3)).
Proof.
  intros Hidle Hds Hf Hid He Hexp Hauth raised halted.
  pose proof (fetch_one_fetch_raises d device_id w1 w2 e Hid He Hexp) as Hone.
  assert (Hupd : _async_update_data self w = (Err raised, w2)).
  { unfold _async_update_data. rewrite Hds.
    rewrite (fetch_loop_stops pre post d entries w w1 w2 e Hf Hone).
    unfold _async_update_data_except. rewrite Hauth. reflexivity. }
  split; [exact Hupd|]. split; [reflexivity|]. split; [reflexivity|].
  split; [|reflexivity].
  unfold _async_refresh. rewrite Hidle, Hupd. reflexivity.
Qed.

End CoordinatorClaims.

(* ===================================================================== *)
(** ** The theorems at concrete clients *)
(* ===================================================================== *)

Section Examples.
Import aiohttp Api Coordinator Fixtures.

(** C7 at a remote that lists three devices, one without the attachment. *)
Lemma async_get_devices_filters_in_order_witness :
  returned (Api.async_get_devices
              (example_client (answers 200 "<two devices>")))
  = Ok [mkDevice "dev-1" "Bedroom" ["CHILIPAD_PRO"];
        mkDevice "dev-2" "Guest" ["WIFI"; "CHILIPAD_PRO"]].
Proof.
  refine (proj1 (async_get_devices_filters_in_order
    (example_client (answers 200 "<two devices>"))
    (mkResponse 200 "status error" (Ok "<two devices>"))
    "<two devices>" two_devices_json
    (mkDevices [mkDevice "dev-1" "Bedroom" ["CHILIPAD_PRO"];
                mkDevice "dev-3" "Old pad" [];
                mkDevice "dev-2" "Guest" ["WIFI"; "CHILIPAD_PRO"]])
    eq_refl _ eq_refl eq_refl eq_refl)).
  reflexivity.
Defined.

(** C8 at a limiter with no budget left and one with five calls left. *)
Lemma rate_limit_is_advisory_witness :
  events (api_wrapper (T := SleepmeDevices)
            (mkClient "secret" (answers 200 "<two devices>") 0%nat)
            GET devices_url None)
  = LogInfo "Rate limit exceeded"
    :: events (api_wrapper (T := SleepmeDevices)
                 (mkClient "secret" (answers 200 "<two devices>") 5%nat)
                 GET devices_url None).
Proof.
  refine (proj2 (proj2 (proj2 (rate_limit_is_advisory (T := SleepmeDevices)
    "secret" (answers 200 "<two devices>") 0%nat 5%nat GET devices_url None
    _ _)))); reflexivity.
Defined.

(** C10 at an array of three device objects. *)
Lemma devices_array_round_trip_witness :
  exists ds : list SleepmeDevice,
    model_validate (T := SleepmeDevices) two_devices_json = Some (mkDevices ds) /\
    Forall2 (fun v d => model_validate v = Some d)
      (match two_devices_json with VList l => l | _ => [] end) ds /\
    model_dump (mkDevices ds) = VList (model_dump <$> ds) /\
    model_validate (T := SleepmeDevices) (model_dump (mkDevices ds))
      = Some (mkDevices ds) /\
    (forall ds0 : list SleepmeDevice,
       match two_devices_json with VList l => l | _ => [] end
         = model_dump <$> ds0 ->
       model_dump (mkDevices ds) = two_devices_json).
Proof.
  apply (devices_array_round_trip
           (match two_devices_json with VList l => l | _ => [] end)).
  repeat (constructor; [eexists; reflexivity|]). constructor.
Defined.


(** C2, as claimed, at two devices of which the first cannot be reached
    and the second would report 72 degrees: the second device is never
    fetched and its cache entry still holds 70 degrees, not the 72 it
    would have reported. *)
Lemma partial_failure_is_not_isolated :
  let m := a_dict_mock first_fails None in
  let after := _async_refresh a_dict_coordinator m in
  mock_state m "dev-1" = Err communication_error /\
  isinstance communication_error SleepmeApiClientCommunicationError = true /\
  mock_state m "dev-2" = Ok (StateDict (json_state 72)) /\
  mock_calls after.2 = [CallState "dev-1"] /\
  (CallState "dev-2" ∉ mock_calls after.2) /\
  cache_entry after.1 "dev-2" = Some (json_entry "dev-2" "Guest" 70) /\
  cache_entry after.1 "dev-2" <> Some (json_entry "dev-2" "Guest" 72).
Proof.
  intros m after.
  assert (Hafter : after = (a_dict_coordinator, called (CallState "dev-1") m))
    by reflexivity.
  rewrite Hafter. simpl.
  split; [reflexivity|]. split; [reflexivity|]. split; [reflexivity|].
  split; [reflexivity|]. split.
  - intros Hin. apply list_elem_of_singleton in Hin. discriminate.
  - split; [reflexivity|].
    intros Heq.
    apply (f_equal (fun o => o ≫= lookup "control")) in Heq.
    change (json_state 70 !! "control" = json_state 72 !! "control") in Heq.
    change (Some (VDict [("brightness_level", VInt 100);
                         ("display_temperature_unit", VStr "f");
                         ("set_temperature_c", VInt 21);
                         ("set_temperature_f", VInt 70);
                         ("thermal_control_status", VStr "active");
                         ("time_zone", VStr "America/Chicago")])
            = Some (VDict [("brightness_level", VInt 100);
                           ("display_temperature_unit", VStr "f");
                           ("set_temperature_c", VInt 21);
                           ("set_temperature_f", VInt 72);
                           ("thermal_control_status", VStr "active");
                           ("time_zone", VStr "America/Chicago")])) in Heq.
    discriminate.
Qed.

(** C2, as the code has it, at the same two devices. *)
Lemma failed_fetch_fails_the_cycle_witness :
  let m := a_dict_mock first_fails None in
  _async_update_data a_dict_coordinator m
    = (Err communication_error, called (CallState "dev-1") m) /\
  _async_refresh a_dict_coordinator m
    = (a_dict_coordinator, called (CallState "dev-1") m).
Proof.
  intros m.
  apply (failed_fetch_fails_the_cycle a_dict_coordinator [] [dict2] dict1 []
           "dev-1" m m (called (CallState "dev-1") m) communication_error);
    [reflexivity|reflexivity|constructor|reflexivity|reflexivity|reflexivity
    |reflexivity|reflexivity].
Defined.

(** C3, as claimed, at the one call [async_set_device_temperature(dev-1,
    72)] answered with 72 degrees: afterwards the control sub-record of
    the entry still holds 70 degrees, and no listener was notified. *)
Lemma mutation_misses_control_and_listeners :
  let m := a_mock (all_report 70) (Ok (a_control 72)) in
  let done := async_set_device_temperature a_coordinator "dev-1" 72 m in
  let control_after := sub_record done.1.2 "dev-1" "control" in
  done.1.1 = Ok tt /\
  set_temperature_f (a_control 72) = mkDecimal false 72 0 /\
  control_after = Some (model_dump (a_control 70)) /\
  control_after <> Some (model_dump (a_control 72)) /\
  notified done.1.2 = notified a_coordinator /\
  notified done.1.2 <> S (notified a_coordinator).
Proof.
  intros m done control_after.
  split; [reflexivity|]. split; [reflexivity|].
  assert (Hc : control_after = Some (model_dump (a_control 70)))
    by reflexivity.
  split; [exact Hc|]. split.
  - rewrite Hc. intros Heq. vm_compute in Heq. discriminate.
  - split; [reflexivity|]. intros Heq.
    change (0%nat = 1%nat) in Heq. discriminate.
Qed.

(** C3, as the code has it, at the same call. *)
Lemma mutation_changes_one_entry_and_notifies_nobody_witness :
  let m := a_mock (all_report 70) (Ok (a_control 72)) in
  let done := mutate (SetTemperature 72) a_coordinator "dev-1" m in
  done.1.1 = Ok tt /\
  done.2 = called (CallSetTemperature "dev-1" 72) m /\
  notified done.1.2 = 0%nat /\
  cache_entry done.1.2 "dev-2" = cache_at_70 !! "dev-2" /\
  sub_record done.1.2 "dev-1" "about" = Some (model_dump an_about) /\
  sub_record done.1.2 "dev-1" "name" = Some (VStr "Bedroom").
Proof.
  intros m done.
  edestruct (mutation_changes_one_entry_and_notifies_nobody
               (SetTemperature 72) a_coordinator "dev-1" m
               (called (CallSetTemperature "dev-1" 72) m) (a_control 72)
               cache_at_70 (unpack (model_dump dev1) (model_dump (a_state 70))))
    as (self' & Hrun & Hnot & _ & _ & Hother & Hkeys);
    [reflexivity|reflexivity|reflexivity|].
  change (mutate (SetTemperature 72) a_coordinator "dev-1" m) with done in Hrun.
  rewrite Hrun. cbn [fst snd].
  split; [reflexivity|]. split; [reflexivity|]. split; [exact Hnot|].
  split; [apply Hother; discriminate|].
  split; (rewrite Hkeys; [reflexivity|discriminate|discriminate]).
Defined.

(** C4 at a mode change the client answers with a communication error. *)
Lemma failed_mutation_leaves_cache_witness :
  let m := a_mock (all_report 70) (Err communication_error) in
  mutate (SetMode "standby") a_coordinator "dev-1" m
  = (Err communication_error, a_coordinator,
     called (CallSetMode "dev-1" "standby") m).
Proof.
  intros m.
  apply (failed_mutation_leaves_cache (SetMode "standby") a_coordinator "dev-1"
           m (called (CallSetMode "dev-1" "standby") m) communication_error).
  reflexivity.
Defined.

(** C5 at two devices, handed over as mappings, that both report 72
    degrees. *)
Lemma successful_cycle_cache_witness :
  let m := a_dict_mock (all_report_json 72) None in
  let ready := mkCoordinator [dict1; dict2] None 0 Idle in
  exists results : gmap string (gmap string value),
    data (_async_refresh ready (called CallDevices m)).1 = Some results /\
    dom results = {["dev-1"; "dev-2"]} /\
    results !! "dev-2" = Some (json_entry "dev-2" "Guest" 72).
Proof.
  intros m ready.
  pose (fresh := mkCoordinator [] None 0 Idle).
  pose (m1 := called (CallState "dev-1") (called CallDevices m)).
  edestruct (successful_cycle_cache fresh ready ready m (called CallDevices m)
               (called CallDevices m) (called (CallState "dev-2") m1)
               (json_cache 72))
    as (ds & entries & Hget & Hds & Hf & Hrefresh & Hdom & Hids & Hentry);
    [reflexivity|reflexivity|reflexivity|reflexivity|].
  exists (json_cache 72). split; [rewrite Hrefresh; reflexivity|].
  split; [|reflexivity].
  unfold json_cache. rewrite !dom_insert_L, dom_empty_L. set_solver.
Defined.

(** C6 at two devices of which the second rejects the credentials. *)
Lemma authentication_failure_halts_witness :
  let m := a_dict_mock second_unauthorized None in
  let m' := called (CallState "dev-2") (called (CallState "dev-1") m) in
  let halted := mkCoordinator [dict1; dict2] (Some (json_cache 70)) 0 Halted in
  _async_refresh a_dict_coordinator m = (halted, m') /\
  _async_refresh halted m' = (halted, m').
Proof.
  intros m m' halted.
  edestruct (authentication_failure_halts a_dict_coordinator [dict1] [] dict2
               [("dev-1", json_entry "dev-1" "Bedroom" 72)] "dev-2"
               m (called (CallState "dev-1") m) m' authentication_error)
    as (_ & _ & _ & Hhalt & Hstay);
    [reflexivity|reflexivity
    |econstructor; [reflexivity|constructor]
    |reflexivity|reflexivity|reflexivity|reflexivity|].
  split; [exact Hhalt|apply Hstay].
Defined.

(** A remote that cannot be reached is reported as a communication
    error, with the connection error as its cause. *)
Lemma unreachable_remote_is_communication_error :
  returned (Api.async_get_device_state (example_client unreachable) "dev-1")
  = Err (Exn SleepmeApiClientCommunicationError
           "Error fetching information - Cannot connect to host"
           (Some (Exn ClientConnectionError "Cannot connect to host" None))).
Proof. reflexivity. Qed.

(** With the client of [api.py] behind a coordinator whose devices are
    mappings, so that the fetch is reached, a remote that answers 401
    does not halt the polling: the client reports the generic error,
    which the coordinator raises again as an ordinary failure. *)
Lemma unauthorized_remote_does_not_halt :
  let client := example_client (answers 401 "") in
  state (_async_refresh a_dict_coordinator client).1 = Idle /\
  (_async_update_data a_dict_coordinator client).1
    = Err (Exn SleepmeApiClientError
             "Something really wrong happened! - Invalid credentials"
             (Some (Exn SleepmeApiClientAuthenticationError
                      "Invalid credentials" None))).
Proof. split; reflexivity. Qed.

End Examples.

(* ===================================================================== *)
(** ** Further properties of the client *)
(* ===================================================================== *)

Section ClientBehaviour.
Import aiohttp Api.
Context `{ext : Externals}.

(** The cases of [_verify_response_or_raise], by status. *)
Lemma verify_response_cases (response : ClientResponse) :
  _verify_response_or_raise response =
    (if (aiohttp.status response <? 400)%Z then Ok tt
     else if (aiohttp.status response =? 401)%Z
             || (aiohttp.status response =? 403)%Z
     then Err (raise_ SleepmeApiClientAuthenticationError "Invalid credentials")
     else if (aiohttp.status response =? 429)%Z
     then Err (raise_ SleepmeApiClientRateLimitError "Rate limit exceeded")
     else Err (raise_ ClientResponseError (reason response))).
Proof.
  unfold _verify_response_or_raise, raise_for_status, ok,
    UNAUTHORIZED, FORBIDDEN, TOO_MANY_REQUESTS.
  destruct (Z.ltb_spec (aiohttp.status response) 400) as [Hlt|Hge].
  - rewrite !bool_decide_eq_false_2 by lia. reflexivity.
  - destruct (Z.eqb_spec (aiohttp.status response) 401) as [->|H1];
      [reflexivity|].
    destruct (Z.eqb_spec (aiohttp.status response) 403) as [->|H3];
      [reflexivity|].
    destruct (Z.eqb_spec (aiohttp.status response) 429) as [->|H9];
      [reflexivity|].
    rewrite !bool_decide_eq_false_2 by done. reflexivity.
Qed.

Lemma verify_response_below_400 (response : ClientResponse) :
  (aiohttp.status response < 400)%Z ->
  _verify_response_or_raise response = Ok tt.
Proof.
  intros Hlt. rewrite verify_response_cases.
  destruct (Z.ltb_spec (aiohttp.status response) 400); [reflexivity|lia].
Qed.

(** X1. [_verify_response_or_raise] accepts exactly the statuses below
    400 (1xx and 3xx included); from 400 on it raises the authentication
    error at 401 and 403, the rate-limit error at 429, and aiohttp's
    [ClientResponseError] at every other status. *)
Theorem verify_accepts_exactly_below_400 (response : ClientResponse) :
  (_verify_response_or_raise response = Ok tt
   <-> (aiohttp.status response < 400)%Z) /\
  (forall e, _verify_response_or_raise response = Err e ->
     exn_cls e =
       (if (aiohttp.status response =? 401)%Z
           || (aiohttp.status response =? 403)%Z
        then SleepmeApiClientAuthenticationError
        else if (aiohttp.status response =? 429)%Z
        then SleepmeApiClientRateLimitError
        else ClientResponseError)).
Proof.
  rewrite verify_response_cases.
  destruct (Z.ltb_spec (aiohttp.status response) 400) as [Hlt|Hge].
  - split; [tauto|]. intros e. discriminate.
  - split.
    + split; [|lia].
      destruct (_ || _); [discriminate|].
      destruct (_ =? _)%Z; discriminate.
    + intros e.
      destruct (_ || _); [by intros [= <-]|].
      destruct (_ =? _)%Z; by intros [= <-].
Qed.

(** The one request of a call. *)
Lemma sent_api_wrapper {T} `{BaseModel T} (self : SleepmeApiClient)
  (method : HTTPMethod) (url : string) (data : option (list (string * value))) :
  sent (events (api_wrapper (T := T) self method url data)) =
    [mkRequest method url
       [("Content-type", "application/json; charset=UTF-8");
        ("Authorization", "Bearer " +:+ _api_key self)]
       (default [] data)].
Proof.
  rewrite api_wrapper_unfold. simpl.
  rewrite sent_app, sent_api_wrapper_try.
  destruct (can_send_request (_rate_limiter self)).1; reflexivity.
Qed.

(** X2. Every call of [api_wrapper] hands exactly one request to the
    session, whatever the session answers: the method, url and body it
    was given, with the content-type header and the bearer key; and it
    consults the rate limiter exactly once. *)
Theorem api_wrapper_sends_one_request {T} `{BaseModel T}
  (self : SleepmeApiClient) (method : HTTPMethod) (url : string)
  (data : option (list (string * value))) :
  let c := api_wrapper (T := T) self method url data in
  sent (events c) =
    [mkRequest method url
       [("Content-type", "application/json; charset=UTF-8");
        ("Authorization", "Bearer " +:+ _api_key self)]
       (default [] data)] /\
  limiter c = (can_send_request (_rate_limiter self)).2.
Proof.
  intros c. split; [apply sent_api_wrapper|].
  unfold c. rewrite api_wrapper_unfold. reflexivity.
Qed.

(** X3. Whatever [api_wrapper] raises is the communication error or the
    generic client error, never one of the two other subclasses, and it
    always carries the exception it replaces as its cause. *)
Theorem api_wrapper_errors_are_wrapped {T} `{BaseModel T}
  (self : SleepmeApiClient) (method : HTTPMethod) (url : string)
  (data : option (list (string * value))) (e : exn) :
  returned (api_wrapper (T := T) self method url data) = Err e ->
  (exn_cls e = SleepmeApiClientCommunicationError \/
   exn_cls e = SleepmeApiClientError) /\
  isinstance e SleepmeApiClientError = true /\
  isinstance e SleepmeApiClientAuthenticationError = false /\
  isinstance e SleepmeApiClientRateLimitError = false /\
  is_Some (exn_cause e).
Proof.
  rewrite api_wrapper_unfold. simpl.
  destruct (api_wrapper_try _ _).2 as [t|e0]; [discriminate|].
  intros [= <-].
  unfold api_wrapper_except.
  destruct (isinstance e0 TimeoutError);
    [|destruct (isinstance e0 ClientError || isinstance e0 gaierror)];
    (split; [auto|]); repeat split; eauto.
Qed.

(** X5. An exception raised by the session, or while the body of an
    accepted response is read, leaves [api_wrapper] as the communication
    error when it is a timeout, an aiohttp client error or a name
    resolution error, and as the generic client error otherwise; the
    original exception is the cause. *)
Theorem transport_failure_is_classified {T} `{BaseModel T}
  (self : SleepmeApiClient) (method : HTTPMethod) (url : string)
  (data : option (list (string * value))) (e0 : exn) :
  (_session self (built_request self method url data) = Err e0 \/
   exists response,
     _session self (built_request self method url data) = Ok response /\
     (aiohttp.status response < 400)%Z /\ read response = Err e0) ->
  exists e,
    returned (api_wrapper (T := T) self method url data) = Err e /\
    exn_cause e = Some e0 /\
    exn_cls e =
      (if isinstance e0 TimeoutError || isinstance e0 ClientError
          || isinstance e0 gaierror
       then SleepmeApiClientCommunicationError
       else SleepmeApiClientError).
Proof.
  intros Hraise.
  assert (Htry : (api_wrapper_try (T := T) self
                    (built_request self method url data)).2 = Err e0).
  { unfold api_wrapper_try.
    destruct Hraise as [-> | (response & -> & Hlt & Hread)]; [reflexivity|].
    rewrite (verify_response_below_400 response Hlt), Hread. reflexivity. }
  exists (api_wrapper_except e0).
  rewrite api_wrapper_unfold. simpl. rewrite Htry.
  split; [reflexivity|]. split; [|apply api_wrapper_except_cls].
  unfold api_wrapper_except.
  destruct (isinstance e0 TimeoutError); [reflexivity|].
  destruct (_ || _); reflexivity.
Qed.

(** X7. The requests of the four operations: both reads are [GET]s with
    an empty JSON body, a temperature change is a [PATCH] of the device
    carrying only [set_temperature_f], a mode change a [PATCH] carrying
    only [thermal_control_status], with whatever mode string it is given. *)
Theorem operation_requests (self : SleepmeApiClient) (device_id mode : string)
  (temperature : Z) :
  let hdrs := [("Content-type", "application/json; charset=UTF-8");
               ("Authorization", "Bearer " +:+ _api_key self)] in
  sent (events (Api.async_get_devices self))
    = [mkRequest GET "https://api.developer.sleep.me/v1/devices" hdrs []] /\
  sent (events (Api.async_get_device_state self device_id))
    = [mkRequest GET ("https://api.developer.sleep.me/v1/devices/" +:+ device_id)
         hdrs []] /\
  sent (events (Api.async_set_device_temperature self device_id temperature))
    = [mkRequest PATCH
         ("https://api.developer.sleep.me/v1/devices/" +:+ device_id) hdrs
         [("set_temperature_f", VInt temperature)]] /\
  sent (events (Api.async_set_device_mode self device_id mode))
    = [mkRequest PATCH
         ("https://api.developer.sleep.me/v1/devices/" +:+ device_id) hdrs
         [("thermal_control_status", VStr mode)]].
Proof.
  intros hdrs.
  unfold Api.async_get_devices, Api.async_get_device_state,
    Api.async_set_device_temperature, Api.async_set_device_mode. simpl.
  repeat split; apply sent_api_wrapper.
Qed.

End ClientBehaviour.

(* ===================================================================== *)
(** ** Further properties of the models *)
(* ===================================================================== *)

Section ModelBehaviour.
Import aiohttp Api.
Context `{ext : Externals}.

(** X8. A device object without the [attachments] key validates with an
    empty attachment list, so it is never eligible. *)
Theorem device_without_attachments_is_not_eligible
  (kv : list (string * value)) (d : SleepmeDevice) :
  dict_get "attachments" kv = None ->
  model_validate (VDict kv) = Some d ->
  attachments d = [] /\ is_chilipad_pro d = false.
Proof.
  intros Hnone. simpl. unfold with_default. rewrite Hnone.
  destruct (required "id" validate_str kv) as [i|]; [|discriminate].
  destruct (required "name" validate_str kv) as [n|]; [|discriminate].
  simpl. intros [= <-]. split; [reflexivity|].
  reflexivity.
Qed.

(** The collection validates an array element by element. *)
Lemma devices_validate_array (l : list value) :
  model_validate (T := SleepmeDevices) (VList l) =
  mkDevices <$> mapM (model_validate (T := SleepmeDevice)) l.
Proof.
  simpl. unfold required. simpl. destruct (mapM _ l); reflexivity.
Qed.

(** X9. The device collection validates from the bare array and from an
    object with a [devices] key alike, and from nothing else: a scalar,
    [null] or an object without the key is rejected. *)
Theorem devices_validate_from_array_or_object (v : value) :
  model_validate (T := SleepmeDevices) v =
  match v with
  | VList l => mkDevices <$> mapM (model_validate (T := SleepmeDevice)) l
  | VDict kv =>
      match dict_get "devices" kv with
      | Some (VList l) =>
          mkDevices <$> mapM (model_validate (T := SleepmeDevice)) l
      | _ => None
      end
  | _ => None
  end.
Proof.
  destruct v as [| | | | |l|kv]; try reflexivity;
    try apply devices_validate_array.
  simpl. unfold required.
  destruct (dict_get "devices" kv) as [[| | | | |l|]|]; reflexivity.
Qed.

(** X10. Validation of the collection is all or nothing: the array is
    rejected exactly when one of its elements is not a valid device. *)
Theorem devices_validation_is_strict (l : list value) :
  model_validate (T := SleepmeDevices) (VList l) = None <->
  Exists (fun v => model_validate (T := SleepmeDevice) v = None) l.
Proof.
  rewrite devices_validate_array.
  rewrite <- mapM_None.
  destruct (mapM _ l); simpl; split; congruence.
Qed.

(** X11. The two literal fields accept exactly their two strings: a
    value validates to a mode (a unit) exactly when it is the string the
    mode (the unit) dumps to. *)
Theorem literal_fields_accept_exactly_their_strings (v : value) :
  (forall t, validate_thermal v = Some t <-> v = dump_thermal t) /\
  (forall u, validate_unit v = Some u <-> v = dump_unit u).
Proof.
  split.
  - intros t. unfold validate_thermal, dump_thermal. split.
    + destruct v as [| | | |s| |]; try discriminate.
      destruct (String.eqb_spec s "active") as [->|_];
        [by intros [= <-]|].
      destruct (String.eqb_spec s "standby") as [->|_];
        [by intros [= <-]|discriminate].
    + intros ->. by destruct t.
  - intros u. unfold validate_unit, dump_unit. split.
    + destruct v as [| | | |s| |]; try discriminate.
      destruct (String.eqb_spec s "f") as [->|_]; [by intros [= <-]|].
      destruct (String.eqb_spec s "c") as [->|_];
        [by intros [= <-]|discriminate].
    + intros ->. by destruct u.
Qed.

(** X12. When the scalar coercions accept the scalars the models dump
    (an [int] as itself, a [bool] as itself, a [Decimal] as itself), a
    dumped device state validates back to the same state: every field of
    about, control and status, the decimal temperatures included, comes
    back as it was. *)
Theorem device_state_dump_round_trip (st : SleepmeDeviceState) :
  (forall z, validate_int (VInt z) = Some z) ->
  (forall b, validate_bool (VBool b) = Some b) ->
  (forall d, validate_decimal (VDec d) = Some d) ->
  model_validate (model_dump st) = Some st.
Proof.
  intros Hint Hbool Hdec.
  destruct st as [[fw ip lan mac mo sn] [b u c f t z] [co lo wl tc tf]].
  cbn. unfold required. cbn.
  rewrite !Hint, !Hbool, !Hdec. cbn.
  destruct u, t; reflexivity.
Qed.

(** X13. [async_get_data] returns the dumps of the devices
    [async_get_devices] returns, in the same order, after the same
    request; each dump validates back to its device. *)
Theorem async_get_data_dumps_devices (self : SleepmeApiClient)
  (ds : list SleepmeDevice) :
  returned (Api.async_get_devices self) = Ok ds ->
  returned (async_get_data self) = Ok (model_dump <$> ds) /\
  events (async_get_data self) = events (Api.async_get_devices self) /\
  mapM (model_validate (T := SleepmeDevice)) (model_dump <$> ds) = Some ds.
Proof.
  intros Hds. unfold async_get_data. cbn [returned events]. rewrite Hds.
  split; [reflexivity|]. split; [reflexivity|].
  apply mapM_fmap_Some, validate_dump_device.
Qed.

End ModelBehaviour.

(* ===================================================================== *)
(** ** Further properties of the coordinator *)
(* ===================================================================== *)

Section CoordinatorBehaviour.
Import aiohttp Api Coordinator.
Context `{ext : Externals} {W : Type} `{cl : Client W} `{clk : Clock W}.

(** X14. A mutation for a device id that has no cache entry (or before
    the first refresh) raises after the client call has been made and
    has succeeded: [KeyError] for a missing id, [TypeError] when there is
    no cache yet; the coordinator is unchanged. *)
Theorem mutation_without_entry_raises (op : mutation)
  (self : SleepmeDataUpdateCoordinator) (device_id : string) (w w' : W)
  (answer : SleepmeDeviceControl) :
  client_mutate op device_id w = (Ok answer, w') ->
  cache_entry self device_id = None ->
  mutate op self device_id w =
    (Err (match data self with
          | None => raise_ TypeError "'NoneType' object is not subscriptable"
          | Some _ => raise_ KeyError device_id
          end),
     self, w').
Proof.
  intros Hc Hnone. unfold cache_entry in Hnone.
  destruct op; simpl in *;
    [unfold async_set_device_temperature | unfold async_set_device_mode];
    rewrite Hc; unfold set_status;
    (destruct (data self) as [cache|]; simpl in Hnone;
       [rewrite Hnone|]; reflexivity).
Qed.

(** X15. Whatever a mutation call does, it keeps the device list, the
    phase and the notification count, it adds no id to and removes none
    from the cache, and it leaves the entry of every other id as it was. *)
Theorem mutation_keeps_cache_keys (op : mutation)
  (self : SleepmeDataUpdateCoordinator) (device_id : string) (w : W) :
  let self' := (mutate op self device_id w).1.2 in
  _devices self' = _devices self /\
  state self' = state self /\
  notified self' = notified self /\
  dom <$> data self' = dom <$> data self /\
  (forall other, other <> device_id ->
     cache_entry self' other = cache_entry self other).
Proof.
  assert (Hset : forall v,
    let self' := (set_status self device_id v).2 in
    _devices self' = _devices self /\ state self' = state self /\
    notified self' = notified self /\
    dom <$> data self' = dom <$> data self /\
    (forall other, other <> device_id ->
       cache_entry self' other = cache_entry self other)).
  { intros v. unfold set_status.
    destruct (data self) as [cache|] eqn:Hd; [|simpl; rewrite Hd; auto].
    destruct (cache !! device_id) as [entry|] eqn:He;
      [|simpl; rewrite Hd; auto].
    simpl. repeat split.
    - f_equal. rewrite dom_insert_L.
      apply (elem_of_dom_2 (D := gset string)) in He.
      apply leibniz_equiv. apply subseteq_union_1. by apply singleton_subseteq_l.
    - intros other Hne. unfold cache_entry. simpl. rewrite Hd. simpl.
      by apply lookup_insert_ne. }
  destruct op; simpl;
    [unfold async_set_device_temperature | unfold async_set_device_mode].
  - destruct (client_async_set_device_temperature device_id temperature w)
      as [[answer|e] w']; [apply Hset|simpl; auto].
  - destruct (client_async_set_device_mode device_id mode w)
      as [[answer|e] w']; [apply Hset|simpl; auto].
Qed.

Lemma fetch_one_raises (d : device_obj) (w w' : W) (e : exn) :
  fetch_one d w = (Err e, w') -> turn_raises d w w' e.
Proof.
  unfold fetch_one, await_device_state, turn_raises.
  destruct (device_id_of d) as [i|e0]; [|intros [= <- <-]; by left].
  destruct (client_async_get_device_state i w) as [r w1] eqn:Hget.
  intros Hone. right. exists i, r.
  destruct (expired w1) eqn:Hexp; cbv beta iota in Hone.
  - injection Hone as <- <-. rewrite Hexp. done.
  - destruct r as [data|e0]; [|injection Hone as <- <-; rewrite Hexp; done].
    destruct (unpack_objects d data) as [entry|e0];
      [|injection Hone as <- <-; rewrite Hexp; done].
    destruct (device_getitem d "name") as [n|e0];
      [|injection Hone as <- <-; rewrite Hexp; done].
    destruct (json_dumps entry) as [[]|e0] eqn:Hjson; [discriminate|].
    injection Hone as <- <-. rewrite Hexp. done.
Qed.

(** X16. The two ways a cycle ends. [_async_update_data] returns only
    after the turn of every device completed, with one entry per turn;
    it raises only because a turn raised (the id subscript, the deadline,
    the fetch, the merge, the name subscript or the dump for the debug
    message), and then it raises that very exception, unless the
    exception is the authentication error, which it replaces by
    [ConfigEntryAuthFailed]; the devices after the failing one get no
    turn. *)
Theorem update_outcomes (self : SleepmeDataUpdateCoordinator) (w : W) :
  match _async_update_data self w with
  | (Ok results, w') =>
      exists entries,
        fetched w (_devices self) entries w' /\
        length entries = length (_devices self) /\
        dom results = list_to_set entries.*1
  | (Err raised, w') =>
      exists pre d post entries w1 e,
        _devices self = pre ++ d :: post /\
        fetched w pre entries w1 /\
        fetch_one d w1 = (Err e, w') /\
        turn_raises d w1 w' e /\
        raised =
          (if isinstance e SleepmeApiClientAuthenticationError
           then raise_from ConfigEntryAuthFailed (str e) e
           else e)
  end.
Proof.
  unfold _async_update_data.
  pose proof (fetch_loop_outcome (_devices self) ∅ w) as Hout.
  destruct (fetch_loop (_devices self) ∅ w) as [[r|e] w'] eqn:Hloop.
  - destruct Hout as [entries Hf]. exists entries. split; [exact Hf|].
    split.
    + clear -Hf. induction Hf; simpl; congruence.
    + destruct (fetch_loop_fetched _ entries ∅ w w' Hf) as (r' & Hl & Hdom & _).
      rewrite Hloop in Hl. injection Hl as <-. rewrite Hdom. set_solver.
  - destruct Hout as (pre & d & post & entries & w1 & Hds & Hf & He).
    exists pre, d, post, entries, w1, e. repeat split; try done.
    + by apply fetch_one_raises.
    + unfold _async_update_data_except.
      destruct (isinstance e SleepmeApiClientAuthenticationError);
        [reflexivity|].
      destruct (isinstance e SleepmeApiClientError); reflexivity.
Qed.

(** A turn that raises anything but a client error ends the cycle with
    that exception; the coordinator is as before. *)
Lemma other_failure_fails_the_cycle (self : SleepmeDataUpdateCoordinator)
  (pre post : list device_obj) (d : device_obj)
  (entries : list (string * gmap string value)) (w w1 w2 : W) (e : exn) :
  state self = Idle ->
  _devices self = pre ++ d :: post ->
  fetched w pre entries w1 ->
  fetch_one d w1 = (Err e, w2) ->
  isinstance e SleepmeApiClientError = false ->
  isinstance e SleepmeApiClientAuthenticationError = false ->
  isinstance e ConfigEntryAuthFailed = false ->
  _async_update_data self w = (Err e, w2) /\
  _async_refresh self w = (self, w2).
Proof.
  intros Hidle Hds Hf Hone Hcli Hauth Hhalt.
  assert (Hupd : _async_update_data self w = (Err e, w2)).
  { unfold _async_update_data. rewrite Hds.
    rewrite (fetch_loop_stops pre post d entries w w1 w2 e Hf Hone).
    unfold _async_update_data_except. rewrite Hauth, Hcli. reflexivity. }
  split; [exact Hupd|].
  unfold _async_refresh. rewrite Hidle, Hupd, Hhalt. reflexivity.
Qed.

(** [json.dumps] raises on a mapping that holds a [Decimal] somewhere. *)
Lemma json_dumps_decimal (entry : gmap string value) (key : string)
  (v : value) :
  entry !! key = Some v ->
  json_serializable v = false ->
  json_dumps entry
    = Err (raise_ TypeError "Object of type Decimal is not JSON serializable").
Proof.
  intros Hk Hv. unfold json_dumps.
  destruct (forallb _ (map_to_list entry)) eqn:Hall; [|reflexivity].
  rewrite forallb_forall in Hall.
  apply elem_of_map_to_list in Hk. apply list_elem_of_In in Hk.
  apply Hall in Hk. simpl in Hk. congruence.
Qed.

(** X28. A device that is a pydantic model, as the client of [api.py]
    hands over, ends the cycle at its own turn, once the turns before it
    completed: the id subscript raises [TypeError] before any state is
    fetched for it, the same [TypeError] leaves [_async_update_data], and
    the coordinator is as before. *)
Theorem model_device_fails_the_cycle (self : SleepmeDataUpdateCoordinator)
  (pre post : list device_obj) (d : SleepmeDevice)
  (entries : list (string * gmap string value)) (w w1 : W) :
  state self = Idle ->
  _devices self = pre ++ DeviceModel d :: post ->
  fetched w pre entries w1 ->
  let e := raise_ TypeError "'SleepmeDevice' object is not subscriptable" in
  _async_update_data self w = (Err e, w1) /\
  _async_refresh self w = (self, w1).
Proof.
  intros Hidle Hds Hf e.
  apply (other_failure_fails_the_cycle self pre post (DeviceModel d) entries
           w w1 w1 e Hidle Hds Hf); reflexivity.
Qed.

(** X29. A state that reaches the merge with a [Decimal] in it ends the
    cycle: after the entry is built, the debug message dumps it as JSON,
    [json.dumps] raises [TypeError], the same [TypeError] leaves
    [_async_update_data], and the coordinator is as before. So does a
    state that is the dump of a [SleepmeDeviceState]. *)
Theorem decimal_in_state_fails_the_cycle (self : SleepmeDataUpdateCoordinator)
  (pre post : list device_obj) (device_id : string)
  (others data : gmap string value) (name : value) (key : string) (v : value)
  (entries : list (string * gmap string value)) (w w1 w2 : W) :
  state self = Idle ->
  _devices self = pre ++ DeviceDict (Some device_id) others :: post ->
  fetched w pre entries w1 ->
  client_async_get_device_state device_id w1 = (Ok (StateDict data), w2) ->
  expired w2 = false ->
  others !! "name" = Some name ->
  data !! key = Some v ->
  json_serializable v = false ->
  let e :=
    raise_ TypeError "Object of type Decimal is not JSON serializable" in
  (_async_update_data self w = (Err e, w2) /\
   _async_refresh self w = (self, w2)) /\
  (forall st : SleepmeDeviceState,
     json_serializable (model_dump (control st)) = false).
Proof.
  intros Hidle Hds Hf Hget Hexp Hname Hkey Hv e. split.
  - apply (other_failure_fails_the_cycle self pre post
             (DeviceDict (Some device_id) others) entries w w1 w2 e
             Hidle Hds Hf); try reflexivity.
    unfold fetch_one, await_device_state. simpl.
    rewrite Hget, Hexp. simpl.
    rewrite lookup_insert_ne by done. rewrite Hname.
    rewrite (json_dumps_decimal _ key v); [reflexivity| |exact Hv].
    apply lookup_union_Some_l. exact Hkey.
  - intros st. reflexivity.
Qed.

(** X30. When the deadline of the timeout block passes while the state
    of a device is awaited, after the turns of the devices before it
    completed, the cycle ends with [TimeoutError], whatever the fetch was
    about to yield; no later device is fetched and the coordinator is as
    before. *)
Theorem deadline_fails_the_cycle (self : SleepmeDataUpdateCoordinator)
  (pre post : list device_obj) (d : device_obj) (device_id : string)
  (entries : list (string * gmap string value)) (w w1 w2 : W)
  (r : result state_obj) :
  state self = Idle ->
  _devices self = pre ++ d :: post ->
  fetched w pre entries w1 ->
  device_id_of d = Ok device_id ->
  client_async_get_device_state device_id w1 = (r, w2) ->
  expired w2 = true ->
  _async_update_data self w = (Err (raise_ TimeoutError ""), w2) /\
  _async_refresh self w = (self, w2).
Proof.
  intros Hidle Hds Hf Hid Hget Hexp.
  apply (other_failure_fails_the_cycle self pre post d entries w w1 w2 _
           Hidle Hds Hf); try reflexivity.
  unfold fetch_one, await_device_state. rewrite Hid, Hget, Hexp. reflexivity.
Qed.

End CoordinatorBehaviour.

Section CoordinatorWithApiClient.
Import aiohttp Api Coordinator.
Context `{ext : Externals} `{clk : Clock SleepmeApiClient}.

(** With the client of [api.py] no turn of the loop completes: a device
    that is a model cannot be subscripted, and for a device that is a
    mapping the state comes back as a model, which cannot be merged. *)
Lemma api_client_turn_raises (d : device_obj) (client : SleepmeApiClient) :
  exists e client',
    fetch_one d client = (Err e, client') /\
    (exn_cls e = TypeError \/ exn_cls e = KeyError \/
     exn_cls e = TimeoutError \/
     exn_cls e = SleepmeApiClientCommunicationError \/
     exn_cls e = SleepmeApiClientError).
Proof.
  unfold fetch_one, await_device_state.
  destruct d as [d|[s|] others]; simpl;
    [eexists _, _; split; [reflexivity|by left]| |
     eexists _, _; split; [reflexivity|by right; left]].
  unfold handed_over, after, Api.async_get_device_state. simpl.
  destruct (expired _);
    [eexists _, _; split; [reflexivity|by right; right; left]|].
  destruct (returned (api_wrapper (T := SleepmeDeviceState) client GET
                        (device_url s) None)) as [st|e] eqn:He.
  - eexists _, _; split; [reflexivity|by left].
  - eexists _, _; split; [reflexivity|].
    apply api_wrapper_never_raises_subclass in He. tauto.
Qed.

(** X17. With the client of [api.py] behind the coordinator, a setup
    whose device request returns stores the devices the client hands
    over, all of which carry the [CHILIPAD_PRO] attachment, and touches
    nothing else of the coordinator; the devices are models, so the
    debug message that subscripts their names raises [TypeError] after
    the list is stored, unless the list is empty. *)
Theorem setup_stores_eligible_devices (self : SleepmeDataUpdateCoordinator)
  (client : SleepmeApiClient) (ds : list SleepmeDevice) :
  returned (Api.async_get_devices client) = Ok ds ->
  let done := _async_setup self client in
  _devices done.1.2 = DeviceModel <$> ds /\
  Forall (fun d => "CHILIPAD_PRO" ∈ attachments d) ds /\
  data done.1.2 = data self /\ notified done.1.2 = notified self /\
  state done.1.2 = state self /\
  done.1.1 =
    match ds with
    | [] => Ok tt
    | _ :: _ =>
        Err (raise_ TypeError "'SleepmeDevice' object is not subscriptable")
    end.
Proof.
  intros Hds done.
  assert (Hpro : Forall (fun d => "CHILIPAD_PRO" ∈ attachments d) ds).
  { unfold Api.async_get_devices in Hds. simpl in Hds.
    destruct (returned (api_wrapper (T := SleepmeDevices) client GET
                          devices_url None)) as [all|e]; [|discriminate].
    injection Hds as <-.
    apply Forall_forall. intros d Hd.
    apply list_elem_of_filter in Hd as [Hpro _].
    unfold is_chilipad_pro in Hpro. by apply bool_decide_eq_true in Hpro. }
  unfold done, _async_setup.
  change (client_async_get_devices client)
    with (handed_over (fmap DeviceModel)
            (after client (Api.async_get_devices client))).
  unfold handed_over, after. cbn [fst snd]. rewrite Hds.
  destruct ds as [|d ds]; simpl; repeat split; try done.
Qed.

(** X18. With the client of [api.py] behind the coordinator,
    [_async_update_data] returns only for an empty device list, and
    whatever it raises is a [TypeError] or [KeyError] of a subscript or
    of the merge, the [TimeoutError] of the deadline, or the
    communication error or the generic client error of that client,
    never [ConfigEntryAuthFailed]: no exception of that client is an
    instance of the authentication error. A refresh cycle therefore
    leaves the phase as it was. *)
Theorem api_client_never_raises_auth_failed
  (self : SleepmeDataUpdateCoordinator) (client : SleepmeApiClient) :
  match (_async_update_data self client).1 with
  | Ok results => _devices self = [] /\ results = ∅
  | Err e =>
      isinstance e ConfigEntryAuthFailed = false /\
      (exn_cls e = TypeError \/ exn_cls e = KeyError \/
       exn_cls e = TimeoutError \/
       exn_cls e = SleepmeApiClientCommunicationError \/
       exn_cls e = SleepmeApiClientError)
  end /\
  state (_async_refresh self client).1 = state self.
Proof.
  assert (Hupd : match (_async_update_data self client).1 with
                 | Ok results => _devices self = [] /\ results = ∅
                 | Err e =>
                     isinstance e ConfigEntryAuthFailed = false /\
                     (exn_cls e = TypeError \/ exn_cls e = KeyError \/
                      exn_cls e = TimeoutError \/
                      exn_cls e = SleepmeApiClientCommunicationError \/
                      exn_cls e = SleepmeApiClientError)
                 end).
  { unfold _async_update_data.
    pose proof (fetch_loop_outcome (_devices self) ∅ client) as Hout.
    destruct (fetch_loop (_devices self) ∅ client) as [[r|e0] w'] eqn:Hloop.
    - simpl. destruct Hout as [entries Hf].
      destruct (_devices self) as [|d rest].
      + simpl in Hloop. injection Hloop as <- _. done.
      + inversion Hf as [|? ? ? ? ? ? ? ? Hone]; subst.
        destruct (api_client_turn_raises d client) as (e & c' & He & _).
        rewrite He in Hone. discriminate.
    - simpl. destruct Hout as (pre & d & post & entries & w1 & _ & _ & He).
      destruct (api_client_turn_raises d w1) as (e & c' & He' & Hcls).
      rewrite He' in He. injection He as -> _.
      destruct e0 as [c m cause]. simpl in Hcls.
      unfold _async_update_data_except, isinstance. simpl.
      destruct Hcls as [->|[->|[->|[->| ->]]]]; simpl; auto 10. }
  split; [exact Hupd|].
  unfold _async_refresh.
  destruct (state self) eqn:Hst; [|exact Hst].
  destruct (_async_update_data self client) as [[r|e] w']; simpl in *;
    [reflexivity|].
  destruct Hupd as [-> _]. first [exact Hst|reflexivity].
Qed.

End CoordinatorWithApiClient.
(* ===================================================================== *)
(** ** Properties of the entities *)
(* ===================================================================== *)

Section StringFacts.

Lemma append_length (s t : string) :
  String.length (s +:+ t) = (String.length s + String.length t)%nat.
Proof. induction s as [|a s IH]; simpl; [reflexivity|by rewrite IH]. Qed.

Lemma append_inj_r (s1 s2 t : string) : s1 +:+ t = s2 +:+ t -> s1 = s2.
Proof.
  revert s2. induction s1 as [|a s1 IH]; intros [|b s2] Heq; simpl in *.
  - reflexivity.
  - apply (f_equal String.length) in Heq.
    rewrite !append_length in Heq. simpl in Heq.
    rewrite ?append_length in Heq. lia.
  - apply (f_equal String.length) in Heq.
    rewrite !append_length in Heq. simpl in Heq.
    rewrite ?append_length in Heq. lia.
  - injection Heq as -> Heq. f_equal. by apply IH.
Qed.

Lemma append_inj_l (p s1 s2 : string) : p +:+ s1 = p +:+ s2 -> s1 = s2.
Proof. induction p as [|a p IH]; simpl; [done|]. intros [= Heq]. auto. Qed.

End StringFacts.

(** Run a reader up to the sub-record it takes out of the entry. *)
Ltac read_entry Hget :=
  unfold mbind, Entity.result_bind; rewrite ?Hget; cbv beta iota;
  unfold Entity.entry_get.

Section EntityBehaviour.
Import aiohttp Api Coordinator Entity.
Context `{ext : Externals} `{cst : Constants} {W : Type} `{cl : Client W}.

Lemma data_getitem_entry (coordinator : SleepmeDataUpdateCoordinator)
  (idx : string) (entry : gmap string value) :
  cache_entry coordinator idx = Some entry ->
  data_getitem coordinator idx = Ok entry.
Proof.
  unfold cache_entry, data_getitem.
  destruct (data coordinator) as [cache|]; simpl; [|discriminate].
  by intros ->.
Qed.

Lemma data_getitem_missing (coordinator : SleepmeDataUpdateCoordinator)
  (idx : string) (cache : gmap string (gmap string value)) :
  data coordinator = Some cache -> cache !! idx = None ->
  data_getitem coordinator idx = Err (raise_ KeyError idx).
Proof. unfold data_getitem. by intros -> ->. Qed.


(** The entry a successful mutation leaves. *)
Lemma mutate_entry (op : mutation) (coordinator : SleepmeDataUpdateCoordinator)
  (device_id : string) (w w' : W) (answer : SleepmeDeviceControl)
  (entry : gmap string value) :
  client_mutate op device_id w = (Ok answer, w') ->
  cache_entry coordinator device_id = Some entry ->
  (mutate op coordinator device_id w).1.1 = Ok tt /\
  (mutate op coordinator device_id w).2 = w' /\
  cache_entry (mutate op coordinator device_id w).1.2 device_id
    = Some (<["status" := model_dump answer]> entry).
Proof.
  intros Hc He. unfold cache_entry in He.
  destruct (data coordinator) as [cache|] eqn:Hd; [|discriminate].
  simpl in He.
  destruct op; simpl in *;
    [unfold async_set_device_temperature | unfold async_set_device_mode];
    rewrite Hc; unfold set_status; rewrite Hd, He; simpl;
    (split; [reflexivity|]; split; [reflexivity|]);
    unfold cache_entry; simpl; apply lookup_insert_eq.
Qed.

(** X19. For a device id the cache does not hold, the readers with an
    [except KeyError] clause do not return the fallback of that clause:
    the message the clause logs subscripts the cache again and raises
    [KeyError] itself. The readers without the clause, and both
    constructors, raise [KeyError] as well. *)
Theorem readers_raise_for_unknown_device
  (coordinator : SleepmeDataUpdateCoordinator)
  (cache : gmap string (gmap string value))
  (self : Climate.SleepmeClimate) (sensor : BinarySensor.SleepmeBinarySensor)
  (sensor_type : string) :
  data coordinator = Some cache ->
  cache !! Climate.idx self = None ->
  BinarySensor.idx sensor = Climate.idx self ->
  let raised := raise_ KeyError (Climate.idx self) in
  Climate.hvac_mode self coordinator = Err raised /\
  Climate.current_temperature self coordinator = (Err raised, self) /\
  BinarySensor.is_on sensor coordinator = Err raised /\
  Climate.available self coordinator = Err raised /\
  Climate.extra_state_attributes self coordinator = Err raised /\
  Climate.preset_mode self coordinator = Err raised /\
  Climate.__init__ coordinator (Climate.idx self) = Err raised /\
  BinarySensor.__init__ coordinator (Climate.idx self) sensor_type = Err raised.
Proof.
  intros Hd Hnone Hidx raised.
  pose proof (data_getitem_missing coordinator _ cache Hd Hnone) as Hget.
  assert (Hhvac : Climate.hvac_mode self coordinator = Err raised).
  { unfold Climate.hvac_mode, except_KeyError. rewrite Hget. reflexivity. }
  split; [exact Hhvac|]. split.
  { unfold Climate.current_temperature, except_KeyError. rewrite Hget.
    reflexivity. }
  split.
  { unfold BinarySensor.is_on, except_KeyError. rewrite Hidx, Hget.
    reflexivity. }
  split.
  { unfold Climate.available, Climate.status_get. rewrite Hget. reflexivity. }
  split.
  { unfold Climate.extra_state_attributes, Climate.status_get.
    rewrite Hget. reflexivity. }
  split.
  { unfold Climate.preset_mode. rewrite Hhvac. reflexivity. }
  split.
  { unfold Climate.__init__. rewrite Hget. reflexivity. }
  unfold BinarySensor.__init__. rewrite Hget. reflexivity.
Qed.


(** X21. After a successful mutation call for the device, and until the
    next refresh, the [status] sub-record of its entry is the control
    record the server answered and its [control] sub-record is the one
    from before. The entity therefore reports the mode from before the
    call, reports itself unavailable, has no current temperature, and
    both binary sensors are off. *)
Theorem entity_after_successful_mutation (op : mutation)
  (coordinator : SleepmeDataUpdateCoordinator) (w w' : W)
  (self : Climate.SleepmeClimate) (answer : SleepmeDeviceControl)
  (entry : gmap string value)
  (low connected : BinarySensor.SleepmeBinarySensor) :
  client_mutate op (Climate.idx self) w = (Ok answer, w') ->
  cache_entry coordinator (Climate.idx self) = Some entry ->
  BinarySensor.idx low = Climate.idx self ->
  BinarySensor._sensor_type low = "is_water_low" ->
  BinarySensor.idx connected = Climate.idx self ->
  BinarySensor._sensor_type connected = "is_connected" ->
  let after := (mutate op coordinator (Climate.idx self) w).1.2 in
  sub_record after (Climate.idx self) "status" = Some (model_dump answer) /\
  sub_record after (Climate.idx self) "control" = entry !! "control" /\
  Climate.hvac_mode self after = Climate.hvac_mode self coordinator /\
  Climate.available self after = Ok (VBool false) /\
  (Climate.current_temperature self after).1 = Ok VNone /\
  BinarySensor.is_on low after = Ok (VBool false) /\
  BinarySensor.is_on connected after = Ok (VBool false).
Proof.
  intros Hc He Hl Hlt Hco Hct after.
  destruct (mutate_entry op coordinator _ w w' answer entry Hc He)
    as (_ & _ & Hafter).
  fold after in Hafter.
  pose proof (data_getitem_entry _ _ _ Hafter) as Hget.
  pose proof (data_getitem_entry _ _ _ He) as Hget0.
  split; [unfold sub_record; rewrite Hafter; apply lookup_insert_eq|].
  split; [unfold sub_record; rewrite Hafter; by apply lookup_insert_ne|].
  split.
  { unfold Climate.hvac_mode, except_KeyError.
    unfold mbind, result_bind. rewrite Hget, Hget0. cbv beta iota.
    unfold entry_get. by rewrite lookup_insert_ne. }
  split.
  { unfold Climate.available, Climate.status_get. read_entry Hget.
    rewrite lookup_insert_eq. reflexivity. }
  split.
  { unfold Climate.current_temperature. read_entry Hget.
    rewrite lookup_insert_eq. reflexivity. }
  split.
  { unfold BinarySensor.is_on, except_KeyError. rewrite Hl, Hlt.
    read_entry Hget. rewrite lookup_insert_eq. reflexivity. }
  unfold BinarySensor.is_on, except_KeyError. rewrite Hco, Hct.
  read_entry Hget. rewrite lookup_insert_eq. reflexivity.
Qed.

End EntityBehaviour.

Section EntityCommands.
Import aiohttp Api Coordinator Entity.
Context `{ext : Externals} `{cst : Constants} {W : Type} `{cl : Client W}.

(** X22. The mode command knows two requests: [HEAT_COOL] asks the
    client for [active], every other mode ([HEAT], [COOL], [AUTO], ...)
    asks for [standby] and is indistinguishable from [OFF]. *)
Theorem other_modes_mean_standby (self : Climate.SleepmeClimate)
  (m : Climate.HVACMode) (coordinator : SleepmeDataUpdateCoordinator) (w : W) :
  m <> Climate.HEAT_COOL ->
  Climate.async_set_hvac_mode self m coordinator w
    = Climate.async_set_hvac_mode self Climate.OFF coordinator w /\
  (Climate.async_set_hvac_mode self m coordinator w).2
    = (client_async_set_device_mode (Climate.idx self) "standby" w).2 /\
  (Climate.async_set_hvac_mode self Climate.HEAT_COOL coordinator w).2
    = (client_async_set_device_mode (Climate.idx self) "active" w).2.
Proof.
  intros Hm. unfold Climate.async_set_hvac_mode, async_set_device_mode.
  rewrite !decide_False by done. rewrite decide_True by done.
  repeat split.
  - destruct (client_async_set_device_mode (Climate.idx self) "standby" w)
      as [[a|e] w']; [|reflexivity].
    by destruct (set_status coordinator (Climate.idx self) (model_dump a))
      as [[[]|e] c'].
  - destruct (client_async_set_device_mode (Climate.idx self) "active" w)
      as [[a|e] w']; [|reflexivity].
    by destruct (set_status coordinator (Climate.idx self) (model_dump a))
      as [[[]|e] c'].
Qed.

(** X23. When the client call of a command raises, the command raises the
    same exception, and the entity and the coordinator are as before: no
    target temperature is stored and no state is written. This holds of
    the mode command and of the temperature command, each on its own. *)
Theorem failed_command_leaves_entity (self : Climate.SleepmeClimate)
  (m : Climate.HVACMode) (temperature : Z)
  (coordinator : SleepmeDataUpdateCoordinator) (w : W) :
  (forall w' e,
     client_async_set_device_mode (Climate.idx self)
       (if decide (m = Climate.HEAT_COOL) then "active" else "standby") w
       = (Err e, w') ->
     Climate.async_set_hvac_mode self m coordinator w
       = (Err e, self, coordinator, w')) /\
  (forall w' e,
     client_async_set_device_temperature (Climate.idx self) temperature w
       = (Err e, w') ->
     Climate.async_set_temperature self (Some temperature) coordinator w
       = (Err e, self, coordinator, w')).
Proof.
  split; intros w' e Hc.
  - unfold Climate.async_set_hvac_mode, async_set_device_mode.
    rewrite Hc. reflexivity.
  - unfold Climate.async_set_temperature, async_set_device_temperature.
    rewrite Hc. reflexivity.
Qed.

(** X24. The temperature command is optimistic and unchecked: after a
    successful call the entity's target temperature is the requested
    integer, whatever control record the server answered and whether or
    not the request lies between [min_temp] and [max_temp], one state
    write is made, and the [control] sub-record of the cache still holds
    what it held. A call without a temperature does nothing. *)
Theorem set_temperature_is_optimistic (self : Climate.SleepmeClimate)
  (temperature : Z) (coordinator : SleepmeDataUpdateCoordinator) (w w' : W)
  (answer : SleepmeDeviceControl) (entry : gmap string value) :
  client_async_set_device_temperature (Climate.idx self) temperature w
    = (Ok answer, w') ->
  cache_entry coordinator (Climate.idx self) = Some entry ->
  let done :=
    Climate.async_set_temperature self (Some temperature) coordinator w in
  done.1.1.1 = Ok tt /\
  Climate.target_temperature done.1.1.2 = VInt temperature /\
  Climate.ha_state_writes done.1.1.2 = S (Climate.ha_state_writes self) /\
  sub_record done.1.2 (Climate.idx self) "control" = entry !! "control" /\
  Climate.async_set_temperature self None coordinator w
    = (Ok tt, self, coordinator, w).
Proof.
  intros Hc He done.
  destruct (mutate_entry (SetTemperature temperature) coordinator
              (Climate.idx self) w w' answer entry Hc He)
    as (Hok & Hw & Hafter).
  simpl in Hok, Hw, Hafter.
  unfold done, Climate.async_set_temperature.
  destruct (async_set_device_temperature coordinator (Climate.idx self)
              temperature w) as [[r c'] w''] eqn:Hset.
  simpl in Hok, Hafter. subst r. simpl.
  repeat split.
  unfold sub_record. rewrite Hafter. simpl. by apply lookup_insert_ne.
Qed.

(** The identifiers [__init__] gives. *)
Lemma climate_init_ids (coordinator : SleepmeDataUpdateCoordinator)
  (idx : string) (entity : Climate.SleepmeClimate) :
  Climate.__init__ coordinator idx = Ok entity ->
  Climate.idx entity = idx /\
  Climate._unique_id entity = idx +:+ "_climate" /\
  Climate._attr_unique_id entity = DOMAIN +:+ "_" +:+ idx +:+ "_thermostat".
Proof.
  unfold Climate.__init__, mbind, result_bind.
  repeat match goal with
         | |- context [match ?r with Ok _ => _ | Err _ => _ end] =>
             destruct r; try discriminate
         end.
  intros [= <-]. auto.
Qed.

Lemma sensor_init_ids (coordinator : SleepmeDataUpdateCoordinator)
  (idx sensor_type : string) (sensor : BinarySensor.SleepmeBinarySensor) :
  BinarySensor.__init__ coordinator idx sensor_type = Ok sensor ->
  BinarySensor.idx sensor = idx /\
  BinarySensor._sensor_type sensor = sensor_type /\
  BinarySensor.unique_id sensor = idx +:+ "_" +:+ sensor_type.
Proof.
  unfold BinarySensor.__init__, mbind, result_bind.
  repeat match goal with
         | |- context [match ?r with Ok _ => _ | Err _ => _ end] =>
             destruct r; try discriminate
         end.
  intros [= <-]. auto.
Qed.

(** X25. Entities of different devices have different unique ids: two
    climate entities with the same [_attr_unique_id] (or the same
    [_unique_id]) were made for the same device id, and so were two
    binary sensors of one sensor type with the same [unique_id]. *)
Theorem unique_ids_identify_the_device
  (coordinator : SleepmeDataUpdateCoordinator) (idx1 idx2 sensor_type : string)
  (c1 c2 : Climate.SleepmeClimate) (s1 s2 : BinarySensor.SleepmeBinarySensor) :
  Climate.__init__ coordinator idx1 = Ok c1 ->
  Climate.__init__ coordinator idx2 = Ok c2 ->
  BinarySensor.__init__ coordinator idx1 sensor_type = Ok s1 ->
  BinarySensor.__init__ coordinator idx2 sensor_type = Ok s2 ->
  (Climate._attr_unique_id c1 = Climate._attr_unique_id c2 -> idx1 = idx2) /\
  (Climate._unique_id c1 = Climate._unique_id c2 -> idx1 = idx2) /\
  (BinarySensor.unique_id s1 = BinarySensor.unique_id s2 -> idx1 = idx2).
Proof.
  intros H1 H2 H3 H4.
  destruct (climate_init_ids _ _ _ H1) as (_ & Hu1 & Ha1).
  destruct (climate_init_ids _ _ _ H2) as (_ & Hu2 & Ha2).
  destruct (sensor_init_ids _ _ _ _ H3) as (_ & _ & Hs1).
  destruct (sensor_init_ids _ _ _ _ H4) as (_ & _ & Hs2).
  rewrite Hu1, Hu2, Ha1, Ha2, Hs1, Hs2.
  split; [|split].
  - intros Heq. apply append_inj_l, append_inj_l in Heq.
    by apply append_inj_r in Heq.
  - apply append_inj_r.
  - intros Heq.
    apply (append_inj_r idx1 idx2 ("_" +:+ sensor_type)). exact Heq.
Qed.


(** X27. A preset is reported only while the device heats or cools: when
    the mode read from the cache is [OFF] the preset is [none] whatever
    the target temperature, and otherwise it is [none] or the name of a
    preset whose temperature equals the Celsius target. *)
Theorem preset_only_when_active (self : Climate.SleepmeClimate)
  (coordinator : SleepmeDataUpdateCoordinator) (preset : string) :
  Climate.preset_mode self coordinator = Ok preset ->
  (Climate.hvac_mode self coordinator = Ok Climate.OFF ->
   preset = Climate.PRESET_NONE) /\
  (preset = Climate.PRESET_NONE \/
   exists target, (preset, target) ∈ PRESET_TEMPERATURES).
Proof.
  unfold Climate.preset_mode, mbind, result_bind.
  destruct (Climate.hvac_mode self coordinator) as [m|e]; [|discriminate].
  destruct (decide (m = Climate.OFF)) as [->|Hm].
  - intros [= <-]. auto.
  - destruct (data_getitem coordinator (Climate.idx self)) as [entry|e];
      [|discriminate].
    destruct (py_get "set_temperature_c" VNone (entry_get "control" entry))
      as [target|e]; [|discriminate].
    intros [= <-]. split; [intros [= ->]; done|].
    unfold Climate._determine_preset_mode.
    induction PRESET_TEMPERATURES as [|[mode t] rest IH]; simpl; [auto|].
    destruct (py_eq target t).
    + right. exists t. apply list_elem_of_here.
    + destruct IH as [->|[t' Hin]]; [auto|].
      right. exists t'. by apply list_elem_of_further.
Qed.

End EntityCommands.

(* ===================================================================== *)
(** ** The further properties at concrete clients *)
(* ===================================================================== *)

Section MoreExamples.
Import aiohttp Api Coordinator Entity Fixtures EntityFixtures.

(** X3 at a remote that answers 401. *)
Lemma api_wrapper_errors_are_wrapped_witness :
  isinstance
    (Exn SleepmeApiClientError
       "Something really wrong happened! - Invalid credentials"
       (Some (Exn SleepmeApiClientAuthenticationError "Invalid credentials"
                None)))
    SleepmeApiClientAuthenticationError = false.
Proof.
  refine (proj1 (proj2 (proj2 (api_wrapper_errors_are_wrapped
    (T := SleepmeDeviceState) (example_client (answers 401 "")) GET
    (device_url "dev-1") None _ _)))).
  reflexivity.
Defined.

(** X4 at a remote that answers 500. *)
Lemma error_status_is_communication_error_witness :
  exists e,
    returned (api_wrapper (T := SleepmeDeviceState)
                (example_client (answers 500 "")) GET (device_url "dev-1") None)
      = Err e /\
    exn_cls e = SleepmeApiClientCommunicationError.
Proof.
  apply (error_status_is_communication_error (T := SleepmeDeviceState)
           (example_client (answers 500 "")) GET (device_url "dev-1") None
           (mkResponse 500 "status error" (Ok "")));
    [reflexivity|done|done|done|done].
Defined.

(** X5 at a remote that cannot be reached. *)
Lemma transport_failure_is_classified_witness :
  exists e,
    returned (api_wrapper (T := SleepmeDeviceState)
                (example_client unreachable) GET (device_url "dev-1") None)
      = Err e /\
    exn_cause e = Some (raise_ ClientConnectionError "Cannot connect to host") /\
    exn_cls e = SleepmeApiClientCommunicationError.
Proof.
  apply (transport_failure_is_classified (T := SleepmeDeviceState)
           (example_client unreachable) GET (device_url "dev-1") None
           (raise_ ClientConnectionError "Cannot connect to host")).
  left. reflexivity.
Defined.

(** X6 at a body that is JSON but not a device state. *)
Lemma invalid_body_is_generic_error_witness :
  exists e,
    returned (api_wrapper (T := SleepmeDeviceState)
                (example_client (answers 200 "<empty object>")) GET
                (device_url "dev-1") None)
      = Err e /\
    exn_cls e = SleepmeApiClientError.
Proof.
  apply (invalid_body_is_generic_error (T := SleepmeDeviceState)
           (example_client (answers 200 "<empty object>")) GET
           (device_url "dev-1") None
           (mkResponse 200 "status error" (Ok "<empty object>"))
           "<empty object>");
    [reflexivity|done|reflexivity|reflexivity].
Defined.

(** X8 at a device object with an id and a name only. *)
Lemma device_without_attachments_is_not_eligible_witness :
  is_chilipad_pro (mkDevice "dev-3" "Old pad" []) = false.
Proof.
  refine (proj2 (device_without_attachments_is_not_eligible
    [("id", VStr "dev-3"); ("name", VStr "Old pad")]
    (mkDevice "dev-3" "Old pad" []) _ _)); reflexivity.
Defined.

(** X12 at coercions that take a scalar of the right type as it is. *)
Lemma device_state_dump_round_trip_witness :
  model_validate (model_dump (a_state 72)) = Some (a_state 72).
Proof.
  apply (device_state_dump_round_trip (ext := example_externals) (a_state 72));
    intros; reflexivity.
Defined.

(** X13 at a remote that lists three devices. *)
Lemma async_get_data_dumps_devices_witness :
  returned (async_get_data (example_client (answers 200 "<two devices>")))
  = Ok [model_dump (mkDevice "dev-1" "Bedroom" ["CHILIPAD_PRO"]);
        model_dump (mkDevice "dev-2" "Guest" ["WIFI"; "CHILIPAD_PRO"])].
Proof.
  refine (proj1 (async_get_data_dumps_devices
    (example_client (answers 200 "<two devices>"))
    [mkDevice "dev-1" "Bedroom" ["CHILIPAD_PRO"];
     mkDevice "dev-2" "Guest" ["WIFI"; "CHILIPAD_PRO"]] _)).
  reflexivity.
Defined.

(** X14 at a temperature change for a device the cache does not hold. *)
Lemma mutation_without_entry_raises_witness :
  let m := a_mock (all_report 70) (Ok (a_control 72)) in
  mutate (SetTemperature 72) without_dev1 "dev-1" m
  = (Err (raise_ KeyError "dev-1"), without_dev1,
     called (CallSetTemperature "dev-1" 72) m).
Proof.
  intros m.
  apply (mutation_without_entry_raises (SetTemperature 72) without_dev1
           "dev-1" m (called (CallSetTemperature "dev-1" 72) m) (a_control 72));
    reflexivity.
Defined.

(** X17 at a remote that lists three devices, one of them not eligible:
    the two eligible ones are stored, and setup raises. *)
Lemma setup_stores_eligible_devices_witness :
  let done := _async_setup (mkCoordinator [] None 0 Idle)
                (example_client (answers 200 "<two devices>")) in
  _devices done.1.2
    = [DeviceModel (mkDevice "dev-1" "Bedroom" ["CHILIPAD_PRO"]);
       DeviceModel (mkDevice "dev-2" "Guest" ["WIFI"; "CHILIPAD_PRO"])] /\
  done.1.1
    = Err (raise_ TypeError "'SleepmeDevice' object is not subscriptable").
Proof.
  intros done.
  edestruct (setup_stores_eligible_devices (mkCoordinator [] None 0 Idle)
               (example_client (answers 200 "<two devices>"))
               [mkDevice "dev-1" "Bedroom" ["CHILIPAD_PRO"];
                mkDevice "dev-2" "Guest" ["WIFI"; "CHILIPAD_PRO"]])
    as (Hds & _ & _ & _ & _ & Hout); [reflexivity|].
  split; [exact Hds|exact Hout].
Defined.

(** X18 at a remote that answers every request with 401, behind a
    coordinator whose devices are mappings. *)
Lemma api_client_never_raises_auth_failed_witness :
  state (_async_refresh a_dict_coordinator
           (example_client (answers 401 ""))).1
  = Idle.
Proof.
  exact (proj2 (api_client_never_raises_auth_failed a_dict_coordinator
                  (example_client (answers 401 "")))).
Defined.

(** X28 at the two devices as the client of [api.py] hands them over:
    no state is fetched. *)
Lemma model_device_fails_the_cycle_witness :
  let m := a_mock (all_report 72) (Ok (a_control 72)) in
  _async_update_data a_coordinator m
    = (Err (raise_ TypeError "'SleepmeDevice' object is not subscriptable"), m)
  /\ _async_refresh a_coordinator m = (a_coordinator, m).
Proof.
  intros m.
  apply (model_device_fails_the_cycle a_coordinator [] [DeviceModel dev2] dev1
           [] m m); [reflexivity|reflexivity|constructor].
Defined.

(** X29 at two mapping devices whose states are dumps of the model. *)
Lemma decimal_in_state_fails_the_cycle_witness :
  let m := a_dict_mock (all_report_dump 72) None in
  _async_update_data a_dict_coordinator m
    = (Err (raise_ TypeError
              "Object of type Decimal is not JSON serializable"),
       called (CallState "dev-1") m)
  /\ _async_refresh a_dict_coordinator m
    = (a_dict_coordinator, called (CallState "dev-1") m).
Proof.
  intros m.
  refine (proj1 (decimal_in_state_fails_the_cycle a_dict_coordinator []
           [dict2] "dev-1"
           (<["name" := VStr "Bedroom"]>
              (<["attachments" := VList [VStr "CHILIPAD_PRO"]]> ∅))
           (mapping (model_dump (a_state 72))) (VStr "Bedroom") "control"
           (model_dump (a_control 72)) [] m m (called (CallState "dev-1") m)
           _ _ _ _ _ _ _ _));
    [reflexivity|reflexivity|constructor|reflexivity|reflexivity|reflexivity
    |reflexivity|reflexivity].
Defined.

(** X30 at two mapping devices and a deadline that passes with the
    second call. *)
Lemma deadline_fails_the_cycle_witness :
  let m := a_dict_mock (all_report_json 72) (Some 2%nat) in
  let m' := called (CallState "dev-2") (called (CallState "dev-1") m) in
  _async_update_data a_dict_coordinator m = (Err (raise_ TimeoutError ""), m')
  /\ _async_refresh a_dict_coordinator m = (a_dict_coordinator, m').
Proof.
  intros m m'.
  apply (deadline_fails_the_cycle a_dict_coordinator [dict1] [] dict2 "dev-2"
           [("dev-1", json_entry "dev-1" "Bedroom" 72)]
           m (called (CallState "dev-1") m) m'
           (Ok (StateDict (json_state 72))));
    [reflexivity|reflexivity
    |econstructor; [reflexivity|constructor]
    |reflexivity|reflexivity|reflexivity].
Defined.

(** X19 at a cache without the device of the entity. *)
Lemma readers_raise_for_unknown_device_witness :
  Climate.hvac_mode a_climate without_dev1 = Err (raise_ KeyError "dev-1").
Proof.
  edestruct (readers_raise_for_unknown_device without_dev1
               (<["dev-2" := unpack (model_dump dev2) (model_dump (a_state 70))]> ∅)
               a_climate a_sensor "is_water_low") as [Hhvac _];
    [reflexivity|reflexivity|reflexivity|exact Hhvac].
Defined.


(** X21 at a mode change the server answers with a control record. *)
Lemma entity_after_successful_mutation_witness :
  let m := a_mock (all_report 70) (Ok (a_control 72)) in
  let after := (mutate (SetMode "standby") a_coordinator "dev-1" m).1.2 in
  Climate.available a_climate after = Ok (VBool false) /\
  Climate.hvac_mode a_climate after = Climate.hvac_mode a_climate a_coordinator.
Proof.
  intros m after.
  edestruct (entity_after_successful_mutation (SetMode "standby") a_coordinator
               m (called (CallSetMode "dev-1" "standby") m) a_climate
               (a_control 72)
               (unpack (model_dump dev1) (model_dump (a_state 70)))
               a_sensor a_connected_sensor)
    as (_ & _ & Hhvac & Havail & _);
    [reflexivity|reflexivity|reflexivity|reflexivity|reflexivity|reflexivity|].
  split; [exact Havail|exact Hhvac].
Defined.

(** X22 at the mode [HEAT]. *)
Lemma other_modes_mean_standby_witness :
  let m := a_mock (all_report 70) (Ok (a_control 72)) in
  Climate.async_set_hvac_mode a_climate Climate.HEAT a_coordinator m
  = Climate.async_set_hvac_mode a_climate Climate.OFF a_coordinator m.
Proof.
  intros m.
  refine (proj1 (other_modes_mean_standby a_climate Climate.HEAT a_coordinator
                   m _)).
  discriminate.
Defined.

(** X23 at a client that answers both commands with a communication
    error. *)
Lemma failed_command_leaves_entity_witness :
  let m := a_mock (all_report 70) (Err communication_error) in
  Climate.async_set_hvac_mode a_climate Climate.OFF a_coordinator m
  = (Err communication_error, a_climate, a_coordinator,
     called (CallSetMode "dev-1" "standby") m) /\
  Climate.async_set_temperature a_climate (Some 72%Z) a_coordinator m
  = (Err communication_error, a_climate, a_coordinator,
     called (CallSetTemperature "dev-1" 72) m).
Proof.
  intros m.
  destruct (failed_command_leaves_entity a_climate Climate.OFF 72
              a_coordinator m) as [Hmode Htemp].
  split; [apply Hmode|apply Htemp]; reflexivity.
Defined.

(** X24 at a request of 200 degrees that the server answers with 72. *)
Lemma set_temperature_is_optimistic_witness :
  let m := a_mock (all_report 70) (Ok (a_control 72)) in
  let done := Climate.async_set_temperature a_climate (Some 200%Z)
                a_coordinator m in
  (Climate.max_temp < 200)%Z /\
  Climate.target_temperature done.1.1.2 = VInt 200 /\
  sub_record done.1.2 "dev-1" "control" = Some (model_dump (a_control 70)).
Proof.
  intros m done. split; [done|].
  edestruct (set_temperature_is_optimistic a_climate 200 a_coordinator m
               (called (CallSetTemperature "dev-1" 200) m) (a_control 72)
               (unpack (model_dump dev1) (model_dump (a_state 70))))
    as (_ & Htarget & _ & Hcontrol & _); [reflexivity|reflexivity|].
  split; [exact Htarget|].
  exact (eq_trans Hcontrol eq_refl).
Defined.

(** X25 at the entities of two devices. *)
Lemma unique_ids_identify_the_device_witness :
  bool_decide (Climate._attr_unique_id a_climate
               = Climate._attr_unique_id another_climate) = false.
Proof.
  apply bool_decide_eq_false_2. intros Heq.
  edestruct (unique_ids_identify_the_device (cst := example_constants)
               a_coordinator "dev-1" "dev-2" "is_water_low"
               a_climate another_climate a_sensor another_sensor)
    as [Hattr _]; [reflexivity|reflexivity|reflexivity|reflexivity|].
  specialize (Hattr Heq). discriminate.
Defined.


(** X27 at an active device whose target is no preset temperature. *)
Lemma preset_only_when_active_witness :
  Climate.PRESET_NONE = Climate.PRESET_NONE \/
  exists target, (Climate.PRESET_NONE, target) ∈ PRESET_TEMPERATURES.
Proof.
  refine (proj2 (preset_only_when_active a_climate a_coordinator
                   Climate.PRESET_NONE _)).
  reflexivity.
Defined.

End MoreExamples.

